(** * Churn prediction app: feature encoding and prediction aggregation

    A shallow embedding of [main.py]: the model loader [load_model], the
    feature encoder [prepare_input], the two chart builders and the
    prediction aggregator [make_predictions], with the properties the
    specification states about them.

    Python scalars are a tagged union; floats are IEEE 754 binary64 values
    computed with the operations of [SpecFloat]; a [dict] is an
    insertion-ordered association list; every Python function is a
    computation over a [world] (files on disk, what the page shows) that
    either returns a value or raises. *)

From Stdlib Require Import ZArith List String Ascii Bool Lia Permutation.
From Stdlib Require Import DecimalString DecimalZ.
From Stdlib Require Import Floats.SpecFloat.
Import ListNotations.

Local Open Scope string_scope.
Local Open Scope list_scope.
Local Open Scope Z_scope.

(* ===================================================================== *)
(** ** Binary64 floats *)
(* ===================================================================== *)

Module F64.

Definition prec : Z := 53.
Definition emax : Z := 1024.

Definition float : Type := spec_float.

Definition add : float -> float -> float := SFadd prec emax.
Definition mul : float -> float -> float := SFmul prec emax.
Definition div : float -> float -> float := SFdiv prec emax.
Definition eqb : float -> float -> bool := SFeqb.

(** An integer converted to the nearest float. *)
Definition of_Z (z : Z) : float := binary_normalize prec emax z 0 false.

Definition zero : float := S754_zero false.
Definition nan : float := S754_nan.

(** The decimal quotient [n / d] of two integers, correctly rounded: the
    value of a decimal literal such as [0.2] is [of_ratio 2 10]. *)
Definition of_ratio (n d : Z) : float := div (of_Z n) (of_Z d).

(** Exact comparison of a float with an integer, as Python's [==] between
    a [float] and an [int] does it. *)
Definition eqb_Z (f : float) (z : Z) : bool :=
  match f with
  | S754_zero _ => Z.eqb z 0
  | S754_finite s m e =>
      let sm := if s then Z.neg m else Z.pos m in
      if Z.leb 0 e then Z.eqb (sm * 2 ^ e) z
      else Z.eqb sm (z * 2 ^ (- e))
  | _ => false
  end.

(** Truncation toward zero of a finite float ([None] for infinities and
    NaN). *)
Definition trunc (f : float) : option Z :=
  match f with
  | S754_zero _ => Some 0
  | S754_finite s m e =>
      let a := if Z.leb 0 e then Z.pos m * 2 ^ e
               else Z.pos m / 2 ^ (- e) in
      Some (if s then - a else a)
  | _ => None
  end.

End F64.

(* ===================================================================== *)
(** ** Python values, exceptions, results *)
(* ===================================================================== *)

(** The scalars that reach the encoder. *)
Inductive value : Type :=
| VNone
| VBool (b : bool)
| VInt (z : Z)
| VFloat (f : F64.float)
| VStr (s : string).

(** Exception classes the program can meet. *)
Inductive exn : Type :=
| FileNotFoundError (path : string)
| IsADirectoryError (path : string)
| NotADirectoryError (path : string)
| PermissionError (path : string)
| UnpicklingError
| EOFError
| AttributeError (attr : string)
| IndexError
| TypeError
| ValueError
| OverflowError
| OtherError (name : string).

Inductive result (A : Type) : Type :=
| Ok (a : A)
| Raise (e : exn).
Arguments Ok {A} a.
Arguments Raise {A} e.

(** Python's [==] on scalars.  [bool] is a subclass of [int], so [True == 1];
    numbers compare by value across [int] and [float]; NaN differs from
    everything, itself included; values of unrelated types are unequal. *)
Definition py_eq (x y : value) : bool :=
  match x, y with
  | VNone, VNone => true
  | VBool a, VBool b => Bool.eqb a b
  | VBool a, VInt z | VInt z, VBool a => Z.eqb (Z.b2z a) z
  | VBool a, VFloat f | VFloat f, VBool a => F64.eqb_Z f (Z.b2z a)
  | VInt a, VInt b => Z.eqb a b
  | VInt z, VFloat f | VFloat f, VInt z => F64.eqb_Z f z
  | VFloat f, VFloat g => F64.eqb f g
  | VStr s, VStr t => String.eqb s t
  | _, _ => false
  end.

(** The conditional expression [1 if x == 'category' else 0]. *)
Definition one_if_eq (x : value) (category : string) : value :=
  if py_eq x (VStr category) then VInt 1 else VInt 0.

Section Builtins.

(** How [int] reads a string is the interpreter's business: [Some z] when
    the text is an integer literal, [None] when [int] raises. *)
Variable int_of_str : string -> option Z.

(** The builtin [int(x)]. *)
Definition py_int (x : value) : result value :=
  match x with
  | VNone => Raise TypeError
  | VBool b => Ok (VInt (Z.b2z b))
  | VInt z => Ok (VInt z)
  | VFloat f =>
      match F64.trunc f with
      | Some z => Ok (VInt z)
      | None => match f with
                | S754_nan => Raise ValueError
                | _ => Raise OverflowError
                end
      end
  | VStr s =>
      match int_of_str s with
      | Some z => Ok (VInt z)
      | None => Raise ValueError
      end
  end.

End Builtins.

(* ===================================================================== *)
(** ** Dictionaries *)
(* ===================================================================== *)

(** A [dict] with string keys keeps its keys in insertion order. *)
Definition dict (A : Type) : Type := list (string * A).

Fixpoint dict_get {A} (d : dict A) (k : string) : option A :=
  match d with
  | [] => None
  | (k', v) :: d' => if String.eqb k k' then Some v else dict_get d' k
  end.

(** [d[k] = v]: overwrite in place when the key is there, append otherwise. *)
Fixpoint dict_set {A} (d : dict A) (k : string) (v : A) : dict A :=
  match d with
  | [] => [(k, v)]
  | (k', v') :: d' =>
      if String.eqb k k' then (k', v) :: d'
      else (k', v') :: dict_set d' k v
  end.

(** A dict display [{k1: v1, ..., kn: vn}]: the items are stored left to
    right. *)
Definition dict_display {A} (items : list (string * A)) : dict A :=
  fold_left (fun d kv => dict_set d (fst kv) (snd kv)) items [].

Definition dict_keys {A} (d : dict A) : list string := map fst d.
Definition dict_values {A} (d : dict A) : list A := map snd d.
Definition dict_items {A} (d : dict A) : list (string * A) := d.

(* ===================================================================== *)
(** ** Data frames *)
(* ===================================================================== *)

(** What the program uses of a pandas [DataFrame]: named columns in order
    and rows of cells.  A cell holds the scalar it was built from. *)
Record DataFrame : Type := {
  columns : list string;
  rows : list (list value)
}.

Definition mem_str (k : string) (l : list string) : bool :=
  existsb (String.eqb k) l.

Fixpoint index_of (k : string) (l : list string) : option nat :=
  match l with
  | [] => None
  | k' :: l' =>
      if String.eqb k k' then Some O
      else option_map S (index_of k l')
  end.

(** [pd.DataFrame(records)] for a list of dicts: the columns are the keys in
    order of first appearance, one row per record, a missing key reads as
    NaN. *)
Definition pd_DataFrame (records : list (dict value)) : DataFrame :=
  let cols :=
    fold_left
      (fun acc r =>
         fold_left (fun acc k => if mem_str k acc then acc else (acc ++ [k]))
                   (dict_keys r) acc)
      records [] in
  {| columns := cols;
     rows := map (fun r =>
                    map (fun c => match dict_get r c with
                                  | Some v => v
                                  | None => VFloat F64.nan
                                  end) cols)
                 records |}.

(** The cell of row [i] under column [c]. *)
Definition df_at (df : DataFrame) (i : nat) (c : string) : option value :=
  match nth_error (rows df) i, index_of c (columns df) with
  | Some row, Some j => nth_error row j
  | _, _ => None
  end.

(* ===================================================================== *)
(** ** The world and the computations over it *)
(* ===================================================================== *)

(** A path on disk: a file with its bytes, a directory, or a file that may
    not be read. *)
Inductive file_entry : Type :=
| RegularFile (content : string)
| Directory
| Unreadable.

(** An f-string is kept as its pieces: literal text, a substituted string,
    and a float under the format [.2%]. *)
Inductive piece : Type :=
| Text (s : string)
| Percent2 (x : F64.float).

Definition fstring : Type := list piece.

(** Plotly traces and figures, with the attributes the program sets. *)
Inductive trace : Type :=
| Indicator (mode : string) (value : F64.float) (title_text : string)
            (axis_range : Z * Z) (bar_color : string)
| Bar (x : list string) (y : list F64.float) (text : list fstring)
      (textposition : string).

Record Layout : Type := {
  title : string;
  xaxis_title : string;
  yaxis_title : string;
  yaxis_tickformat : string
}.

Record Figure : Type := {
  traces : list trace;
  layout : option Layout
}.

(** What a Streamlit call puts on the page. *)
Inductive widget : Type :=
| StError (msg : string)
| StMarkdown (body : string)
| StWrite (body : fstring)
| StColumns (n : nat)
| StPlotlyChart (fig : Figure) (use_container_width : bool).

(** An element of the page: the widget and the column it sits in ([None] is
    the page body). *)
Record element : Type := {
  container : option nat;
  shown : widget
}.

Record world : Type := {
  fs : dict file_entry;
  page : list element;
  cursor : option nat
}.

(** A Python computation: from a world to a result and the world it
    leaves.  What was done before an exception stays done. *)
Definition Py (A : Type) : Type := world -> result A * world.

Definition ret {A} (a : A) : Py A := fun w => (Ok a, w).

Definition raise {A} (e : exn) : Py A := fun w => (Raise e, w).

Definition bind {A B} (m : Py A) (k : A -> Py B) : Py B :=
  fun w => match m w with
           | (Ok a, w') => k a w'
           | (Raise e, w') => (Raise e, w')
           end.

Definition lift {A} (r : result A) : Py A := fun w => (r, w).

(** [try: m except ...: h]: the handler sees the exception; a handler that
    has no clause for it raises it again. *)
Definition try_except {A} (m : Py A) (h : exn -> Py A) : Py A :=
  fun w => match m w with
           | (Ok a, w') => (Ok a, w')
           | (Raise e, w') => h e w'
           end.

Declare Scope py_scope.
Delimit Scope py_scope with py.
Notation "x <- m ;; k" := (bind m (fun x => k))
  (at level 100, m at next level, right associativity) : py_scope.
Notation "m ;; k" := (bind m (fun _ => k))
  (at level 100, right associativity) : py_scope.
Local Open Scope py_scope.

(** [for x in l: body]. *)
Fixpoint for_each {A} (l : list A) (body : A -> Py unit) : Py unit :=
  match l with
  | [] => ret tt
  | a :: l' => body a ;; for_each l' body
  end.

(** *** Streamlit *)

Definition emit (wd : widget) : Py unit :=
  fun w => (Ok tt,
            {| fs := fs w;
               page := (page w ++ [{| container := cursor w; shown := wd |}]);
               cursor := cursor w |}).

Definition st_error (msg : string) : Py unit := emit (StError msg).
Definition st_markdown (body : string) : Py unit := emit (StMarkdown body).
Definition st_write (body : fstring) : Py unit := emit (StWrite body).
(** [st.plotly_chart]: the chart is put on the page.  Streamlit refuses a
    chart identical to one drawn earlier in the same run of the script; the
    script draws each chart once per run, and the refusal is left out
    here. *)
Definition st_plotly_chart (fig : Figure) (use_container_width : bool)
  : Py unit := emit (StPlotlyChart fig use_container_width).

(** [st.columns(2)] lays out the columns and returns their handles. *)
Definition st_columns2 : Py (nat * nat) :=
  emit (StColumns 2) ;; ret (0%nat, 1%nat).

Definition set_cursor (c : option nat) : Py unit :=
  fun w => (Ok tt, {| fs := fs w; page := page w; cursor := c |}).

(** [with col: body]: the body's widgets go to the column; the previous
    container is restored on the way out, also when the body raises. *)
Definition with_column {A} (col : nat) (body : Py A) : Py A :=
  fun w =>
    let saved := cursor w in
    match (set_cursor (Some col) ;; body) w with
    | (r, w') => (r, snd (set_cursor saved w'))
    end.

(** *** Files *)

(** The paths that have to be directories for [filename] to be reached:
    what stands before each "/" of it. *)
Fixpoint parents_go (s seen : string) : list string :=
  match s with
  | EmptyString => []
  | String c s' =>
      if Ascii.eqb c "/"
      then seen :: parents_go s' (seen ++ String c "")%string
      else parents_go s' (seen ++ String c "")%string
  end.

Definition parents (filename : string) : list string :=
  parents_go filename "".

(** Some parent of the path is a file, not a directory. *)
Definition under_a_file (files : dict file_entry) (filename : string)
  : bool :=
  existsb (fun p => match dict_get files p with
                    | Some (RegularFile _) | Some Unreadable => true
                    | _ => false
                    end)
          (parents filename).

(** [open(filename, "rb")], read to the end.  A path that is not there is
    not found, unless it lies under a file: then it is refused as not a
    directory. *)
Definition open_rb (filename : string) : Py string :=
  fun w => match dict_get (fs w) filename with
           | None =>
               if under_a_file (fs w) filename
               then (Raise (NotADirectoryError filename), w)
               else (Raise (FileNotFoundError filename), w)
           | Some (RegularFile content) => (Ok content, w)
           | Some Directory => (Raise (IsADirectoryError filename), w)
           | Some Unreadable => (Raise (PermissionError filename), w)
           end.

(* ===================================================================== *)
(** ** Models *)
(* ===================================================================== *)

(** A loaded classifier: [predict_proba] maps a frame to one row of class
    probabilities per row of the frame, or raises. *)
Record classifier : Type := {
  predict_proba : DataFrame -> result (list (list F64.float))
}.

(** A module-level model variable holds a classifier or [None]. *)
Definition model : Type := option classifier.

(** The three module-level variables set at start-up. *)
Record registry : Type := {
  xgboost_model : model;
  random_forest_model : model;
  knn_model : model
}.

(** [m.predict_proba(input_df)[0][1]]. *)
Definition positive_proba (m : model) (input_df : DataFrame) : Py F64.float :=
  match m with
  | None => raise (AttributeError "predict_proba")
  | Some c =>
      proba <- lift (predict_proba c input_df) ;;
      match nth_error proba 0 with
      | None => raise IndexError
      | Some row =>
          match nth_error row 1 with
          | None => raise IndexError
          | Some p => ret p
          end
      end
  end.

(** [np.mean] of a short list of floats: the elements are added left to
    right starting from zero, and the sum is divided by their number. *)
Definition np_mean (l : list F64.float) : F64.float :=
  F64.div (fold_left F64.add l F64.zero) (F64.of_Z (Z.of_nat (List.length l))).

Section Program.

Variable int_of_str : string -> option Z.

(** [pickle.load] on the bytes of a file: the object stored there, or the
    exception the unpickler raises. *)
Variable pickle_load : string -> result model.

(** [load_model], lines 16-25. *)
Definition load_model (filename : string) : Py model :=
  try_except
    (content <- open_rb filename ;;
     lift (pickle_load content))
    (fun e =>
       match e with
       | FileNotFoundError _ =>
           st_error ("Model file '" ++ filename ++ "' not found.")%string ;;
           ret None
       | UnpicklingError =>
           st_error ("Error loading model from '" ++ filename
                     ++ "'. File might be corrupted.")%string ;;
           ret None
       | _ => raise e
       end).

(** Lines 28-30. *)
Definition load_models : Py registry :=
  xgb <- load_model "xgb_model.pkl" ;;
  rf <- load_model "rf_model.pkl" ;;
  knn <- load_model "knn_model.pkl" ;;
  ret {| xgboost_model := xgb;
         random_forest_model := rf;
         knn_model := knn |}.

(** [create_gauge_chart], lines 33-41. *)
Definition create_gauge_chart (value : F64.float) : Py Figure :=
  ret {| traces := [Indicator "gauge+number"
                              (F64.mul value (F64.of_Z 100))
                              "Churn Probability (%)"
                              (0, 100)
                              "darkblue"];
         layout := None |}.

(** [create_model_probability_chart], lines 43-57. *)
Definition create_model_probability_chart (probabilities : dict F64.float)
  : Py Figure :=
  ret {| traces := [Bar (dict_keys probabilities)
                        (dict_values probabilities)
                        (map (fun v => [Percent2 v])
                             (dict_values probabilities))
                        "auto"];
         layout := Some {| title := "Model Probabilities";
                           xaxis_title := "Models";
                           yaxis_title := "Probability";
                           yaxis_tickformat := ".0%" |} |}.

(** [prepare_input], lines 60-80.  The entries of the display are
    evaluated in order; the two [int] calls are the only ones that can
    raise, the first of them first. *)
Definition prepare_input
  (credit_score location gender age tenure balance num_products
   has_credit_card is_active_member estimated_salary : value)
  : Py (DataFrame * dict value) :=
  HasCrCard <- lift (py_int int_of_str has_credit_card) ;;
  IsActiveMember <- lift (py_int int_of_str is_active_member) ;;
  let input_dict := dict_display
    [ ("CreditScore", credit_score);
      ("Age", age);
      ("Tenure", tenure);
      ("Balance", balance);
      ("NumOfProducts", num_products);
      ("HasCrCard", HasCrCard);
      ("IsActiveMember", IsActiveMember);
      ("EstimatedSalary", estimated_salary);
      ("Geography_France", one_if_eq location "France");
      ("Geography_Germany", one_if_eq location "Germany");
      ("Geography_Spain", one_if_eq location "Spain");
      ("Gender_Male", one_if_eq gender "Male");
      ("Gender_Female", one_if_eq gender "Female") ] in
  let input_df := pd_DataFrame [input_dict] in
  ret (input_df, input_dict).

Variable models : registry.

(** Lines 85-89: the dict of per-model probabilities. *)
Definition model_probabilities (input_df : DataFrame)
  : Py (dict F64.float) :=
  xgb <- positive_proba (xgboost_model models) input_df ;;
  rf <- positive_proba (random_forest_model models) input_df ;;
  knn <- positive_proba (knn_model models) input_df ;;
  ret (dict_display [ ("XGBoost", xgb);
                      ("Random Forest", rf);
                      ("K-Nearest Neighbors", knn) ]).

(** [make_predictions], lines 83-109. *)
Definition make_predictions (input_df : DataFrame) (input_dict : dict value)
  : Py F64.float :=
  probabilities <- model_probabilities input_df ;;
  let avg_probability := np_mean (dict_values probabilities) in
  st_markdown "### Model Probabilities" ;;
  for_each (dict_items probabilities)
    (fun '(model, prob) => st_write [Text model; Text ": "; Percent2 prob]) ;;
  st_write [Text "Average Probability: "; Percent2 avg_probability] ;;
  cols <- st_columns2 ;;
  let '(col1, col2) := cols in
  with_column col1
    (fig <- create_gauge_chart avg_probability ;;
     st_plotly_chart fig true ;;
     st_write [Text "The customer has a "; Percent2 avg_probability;
               Text " probability of churning."]) ;;
  with_column col2
    (fig_probs <- create_model_probability_chart probabilities ;;
     st_plotly_chart fig_probs true) ;;
  ret avg_probability.

End Program.

(* ===================================================================== *)
(** ** Vocabulary of the properties *)
(* ===================================================================== *)

(** The 13 field names of the feature vector, in order. *)
Definition feature_names : list string :=
  [ "CreditScore"; "Age"; "Tenure"; "Balance"; "NumOfProducts";
    "HasCrCard"; "IsActiveMember"; "EstimatedSalary";
    "Geography_France"; "Geography_Germany"; "Geography_Spain";
    "Gender_Male"; "Gender_Female" ].

Definition location_indicators : list string :=
  [ "Geography_France"; "Geography_Germany"; "Geography_Spain" ].

Definition gender_indicators : list string :=
  [ "Gender_Male"; "Gender_Female" ].

Definition recognised_locations : list string :=
  [ "France"; "Germany"; "Spain" ].

Definition recognised_genders : list string := [ "Male"; "Female" ].

(** How many of the fields [ks] hold a value equal to 1. *)
Definition count_ones (d : dict value) (ks : list string) : nat :=
  List.length
    (filter (fun k => match dict_get d k with
                      | Some v => py_eq v (VInt 1)
                      | None => false
                      end) ks).

(** Every field of [ks] is present and holds the integer 0 or 1. *)
Definition all_bits (d : dict value) (ks : list string) : Prop :=
  Forall (fun k => dict_get d k = Some (VInt 0)
                   \/ dict_get d k = Some (VInt 1)) ks.

(** The same two notions read off row [i] of a frame. *)
Definition count_ones_row (df : DataFrame) (i : nat) (ks : list string)
  : nat :=
  List.length
    (filter (fun k => match df_at df i k with
                      | Some v => py_eq v (VInt 1)
                      | None => false
                      end) ks).

Definition all_bits_row (df : DataFrame) (i : nat) (ks : list string)
  : Prop :=
  Forall (fun k => df_at df i k = Some (VInt 0)
                   \/ df_at df i k = Some (VInt 1)) ks.

(** The types the page's widgets hand to the encoder (lines 185-196):
    number inputs with integer bounds give an [int], those with float
    bounds a [float], a select box or radio a [str], a checkbox a
    [bool]. *)
Inductive pytype : Type := Tint | Tfloat | Tbool | Tstr.

Definition has_type (v : value) (t : pytype) : bool :=
  match v, t with
  | VInt _, Tint | VFloat _, Tfloat | VBool _, Tbool | VStr _, Tstr => true
  | _, _ => false
  end.

Definition well_typed_input
  (credit_score location gender age tenure balance num_products
   has_credit_card is_active_member estimated_salary : value) : bool :=
  has_type credit_score Tint && has_type location Tstr
  && has_type gender Tstr && has_type age Tint && has_type tenure Tint
  && has_type balance Tfloat && has_type num_products Tint
  && has_type has_credit_card Tbool && has_type is_active_member Tbool
  && has_type estimated_salary Tfloat.

(** All the strings of a list differ. *)
Fixpoint distinct (l : list string) : bool :=
  match l with
  | [] => true
  | k :: l' => negb (mem_str k l') && distinct l'
  end.

(** The classifier [m] answers [p] for class 1 of the first row of
    [input_df]. *)
Definition answers (m : model) (input_df : DataFrame) (p : F64.float) : Prop :=
  exists c proba row,
    m = Some c /\ predict_proba c input_df = Ok proba
    /\ nth_error proba 0 = Some row /\ nth_error row 1 = Some p.

(** What [load_model] finds wrong with an artifact, and the message for
    it. *)
Inductive artifact_fault (pickle_load : string -> result model)
          (w : world) (filename : string) : string -> Prop :=
| fault_not_found :
    dict_get (fs w) filename = None ->
    under_a_file (fs w) filename = false ->
    artifact_fault pickle_load w filename
      ("Model file '" ++ filename ++ "' not found.")%string
| fault_corrupt content :
    dict_get (fs w) filename = Some (RegularFile content) ->
    pickle_load content = Raise UnpicklingError ->
    artifact_fault pickle_load w filename
      ("Error loading model from '" ++ filename
       ++ "'. File might be corrupted.")%string.

(** The world after the widgets [ws] were put in the current container. *)
Definition shows (w : world) (ws : list widget) : world :=
  {| fs := fs w;
     page := page w ++ map (fun wd => {| container := cursor w;
                                         shown := wd |}) ws;
     cursor := cursor w |}.

(** The decimal literals 0.2, 0.5 and 0.8 as floats. *)
Definition lit_0_2 : F64.float := F64.of_ratio 2 10.
Definition lit_0_5 : F64.float := F64.of_ratio 5 10.
Definition lit_0_8 : F64.float := F64.of_ratio 8 10.

(** What [make_predictions] adds to the page when the three models answer
    [xgb], [rf] and [knn]; [here] is the container it was called in. *)
Definition prediction_page (here : option nat) (xgb rf knn : F64.float)
  : list element :=
  let avg := np_mean [xgb; rf; knn] in
  [ {| container := here; shown := StMarkdown "### Model Probabilities" |};
    {| container := here;
       shown := StWrite [Text "XGBoost"; Text ": "; Percent2 xgb] |};
    {| container := here;
       shown := StWrite [Text "Random Forest"; Text ": "; Percent2 rf] |};
    {| container := here;
       shown := StWrite [Text "K-Nearest Neighbors"; Text ": ";
                         Percent2 knn] |};
    {| container := here;
       shown := StWrite [Text "Average Probability: "; Percent2 avg] |};
    {| container := here; shown := StColumns 2 |};
    {| container := Some 0%nat;
       shown := StPlotlyChart
                  {| traces := [Indicator "gauge+number"
                                          (F64.mul avg (F64.of_Z 100))
                                          "Churn Probability (%)"
                                          (0, 100) "darkblue"];
                     layout := None |}
                  true |};
    {| container := Some 0%nat;
       shown := StWrite [Text "The customer has a "; Percent2 avg;
                         Text " probability of churning."] |};
    {| container := Some 1%nat;
       shown := StPlotlyChart
                  {| traces := [Bar ["XGBoost"; "Random Forest";
                                     "K-Nearest Neighbors"]
                                    [xgb; rf; knn]
                                    [[Percent2 xgb]; [Percent2 rf];
                                     [Percent2 knn]]
                                    "auto"];
                     layout := Some {| title := "Model Probabilities";
                                       xaxis_title := "Models";
                                       yaxis_title := "Probability";
                                       yaxis_tickformat := ".0%" |} |}
                  true |} ].

(** Sample data: a classifier that answers [p] for class 1 whatever the
    frame, a registry of three of them, an empty page on an empty disk. *)
Definition constant_classifier (p : F64.float) : model :=
  Some {| predict_proba := fun _ => Ok [[F64.zero; p]] |}.

Definition sample_registry : registry :=
  {| xgboost_model := constant_classifier lit_0_2;
     random_forest_model := constant_classifier lit_0_5;
     knn_model := constant_classifier lit_0_8 |}.

Definition empty_world : world := {| fs := []; page := []; cursor := None |}.

Definition sample_dict : dict value :=
  [ ("CreditScore", VInt 650); ("Age", VInt 40); ("Tenure", VInt 3);
    ("Balance", VFloat (F64.of_Z 50000)); ("NumOfProducts", VInt 2);
    ("HasCrCard", VInt 1); ("IsActiveMember", VInt 1);
    ("EstimatedSalary", VFloat (F64.of_Z 60000));
    ("Geography_France", VInt 0); ("Geography_Germany", VInt 0);
    ("Geography_Spain", VInt 1); ("Gender_Male", VInt 0);
    ("Gender_Female", VInt 1) ].

Definition sample_frame : DataFrame := pd_DataFrame [sample_dict].

(* ===================================================================== *)
(** ** The script: choosing a customer *)
(* ===================================================================== *)

(** A row of the dataset, with the columns of [churn.csv] that the script
    reads, typed as the file holds them. *)
Record customer : Type := {
  CustomerId : Z;
  Surname : string;
  CreditScore : Z;
  Geography : string;
  Gender : string;
  Age : Z;
  Tenure : Z;
  Balance : F64.float;
  NumOfProducts : Z;
  HasCrCard : Z;
  IsActiveMember : Z;
  EstimatedSalary : F64.float
}.

(** [str(n)] of an integer, which is also what an f-string makes of it. *)
Definition str_of_int (z : Z) : string := NilZero.string_of_int (Z.to_int z).

(** The scan behind [s.split(sep)]: [skip] characters of a separator just
    found are still to be passed over, [cur] is the part read so far. *)
Fixpoint split_go (sep s : string) (skip : nat) (cur : string)
  : list string :=
  match s with
  | EmptyString => [cur]
  | String c s' =>
      match skip with
      | S n => split_go sep s' n cur
      | O =>
          if prefix sep s
          then cur :: split_go sep s' (String.length sep - 1) ""
          else split_go sep s' 0 (cur ++ String c "")%string
      end
  end.

(** [s.split(sep)]: the parts between the occurrences of [sep], found from
    left to right; an empty separator is refused. *)
Definition py_split (s sep : string) : result (list string) :=
  match sep with
  | EmptyString => Raise ValueError
  | _ => Ok (split_go sep s 0 "")
  end.

(** [l[i]] for a list. *)
Definition py_item {A} (l : list A) (i : nat) : result A :=
  match nth_error l i with
  | Some a => Ok a
  | None => Raise IndexError
  end.

(** [l.index(x)] for a list of strings. *)
Definition py_index (l : list string) (x : string) : result nat :=
  match index_of x l with
  | Some i => Ok i
  | None => Raise ValueError
  end.

(** Line 171: one option per row, [f"{CustomerId} - {Surname}"]. *)
Definition customers (df : list customer) : list string :=
  map (fun row => (str_of_int (CustomerId row) ++ " - " ++ Surname row)%string)
      df.

(** Lines 177-179: the id and the surname are read back from the selected
    option, and the row is the first one of the dataset with that id. *)
Definition select_customer (int_of_str : string -> option Z)
           (df : list customer) (selected_customer_option : string)
  : Py (value * string * customer) :=
  id_parts <- lift (py_split selected_customer_option " - ") ;;
  id_text <- lift (py_item id_parts 0) ;;
  selected_customer_id <- lift (py_int int_of_str (VStr id_text)) ;;
  surname_parts <- lift (py_split selected_customer_option " - ") ;;
  selected_surname <- lift (py_item surname_parts 1) ;;
  selected_customer <-
    lift (py_item
            (filter (fun row => py_eq (VInt (CustomerId row))
                                      selected_customer_id) df)
            0) ;;
  ret (selected_customer_id, selected_surname, selected_customer).

(** Line 186: the position of the row's geography among the options of the
    location box. *)
Definition location_options : list string := [ "Spain"; "France"; "Germany" ].

Definition location_index (selected_customer : customer) : result nat :=
  py_index location_options (Geography selected_customer).

(** Line 187: the position of the row's gender among the options of the
    gender radio. *)
Definition gender_options : list string := [ "Male"; "Female" ].

Definition gender_index (selected_customer : customer) : nat :=
  if String.eqb (Gender selected_customer) "Male" then 0%nat else 1%nat.

(** The string has no character [c]. *)
Fixpoint free_of (c : ascii) (s : string) : Prop :=
  match s with
  | EmptyString => True
  | String a s' => a <> c /\ free_of c s'
  end.

(** The text [sep] occurs nowhere in [s]. *)
Definition lacks (sep s : string) : Prop :=
  forall a b, s <> (a ++ sep ++ b)%string.

(** A parser of decimal integers, to stand for [int] on strings in the
    examples. *)
Definition decimal_int_of_str (s : string) : option Z :=
  option_map Z.of_int (NilZero.int_of_string s).

(** Sample rows: two customers share an id, and one surname holds the
    separator of the options. *)
Definition sample_row (id : Z) (surname geography gender : string)
  : customer :=
  {| CustomerId := id; Surname := surname; CreditScore := 650;
     Geography := geography; Gender := gender; Age := 40; Tenure := 3;
     Balance := F64.of_Z 50000; NumOfProducts := 2; HasCrCard := 1;
     IsActiveMember := 1; EstimatedSalary := F64.of_Z 60000 |}.

Definition sample_rows : list customer :=
  [ sample_row 15634602 "Hargrave" "France" "Female";
    sample_row 15647311 "Hill - Jones" "Spain" "Female";
    sample_row 15634602 "Onio" "Germany" "Male" ].

(* ===================================================================== *)
(** ** Facts about dictionaries and frames *)
(* ===================================================================== *)

Section DictFacts.

Context {A : Type}.
Implicit Types (d : dict A) (k : string) (v : A).

Lemma dict_set_fresh d k v :
  ~ In k (dict_keys d) -> dict_set d k v = (d ++ [(k, v)]).
Proof.
  induction d as [| [k' v'] d IH]; simpl; intros Hn.
  - reflexivity.
  - destruct (String.eqb_spec k k') as [-> | Hne].
    + exfalso. apply Hn. now left.
    + rewrite IH; [reflexivity |]. intros HI. apply Hn. now right.
Qed.

Lemma dict_fill_nodup (items : list (string * A)) d :
  NoDup (dict_keys (d ++ items)) ->
  fold_left (fun d kv => dict_set d (fst kv) (snd kv)) items d
  = (d ++ items).
Proof.
  revert d. induction items as [| [k v] items IH]; intros d Hnd; simpl.
  - now rewrite app_nil_r.
  - assert (Hfresh : ~ In k (dict_keys d)).
    { unfold dict_keys in *. rewrite map_app in Hnd. simpl in Hnd.
      apply NoDup_remove_2 in Hnd. intros HI. apply Hnd.
      apply in_or_app. now left. }
    rewrite (dict_set_fresh d k v Hfresh).
    rewrite IH; rewrite <- app_assoc; simpl; [reflexivity | exact Hnd].
Qed.

(** A display whose keys are pairwise distinct stores its items as
    written. *)
Lemma dict_display_nodup (items : list (string * A)) :
  NoDup (map fst items) -> dict_display items = items.
Proof.
  intros Hnd. unfold dict_display.
  now rewrite dict_fill_nodup.
Qed.

Lemma dict_get_In d k v :
  NoDup (dict_keys d) -> In (k, v) d -> dict_get d k = Some v.
Proof.
  induction d as [| [k' v'] d IH]; simpl; intros Hnd HI.
  - contradiction.
  - inversion Hnd as [| ? ? Hnotin Hnd']; subst.
    destruct HI as [E | HI].
    + inversion E; subst. now rewrite String.eqb_refl.
    + destruct (String.eqb_spec k k') as [-> | Hne].
      * exfalso. apply Hnotin. unfold dict_keys.
        change k' with (fst (k', v)). now apply in_map.
      * now apply IH.
Qed.

(** The position of a key among the keys is the position of its value
    among the values. *)
Lemma dict_get_by_index d k :
  match index_of k (dict_keys d) with
  | Some j => nth_error (dict_values d) j
  | None => None
  end = dict_get d k.
Proof.
  induction d as [| [k' v'] d IH]; simpl.
  - reflexivity.
  - destruct (String.eqb k k'); [reflexivity |].
    rewrite <- IH. now destruct (index_of k (dict_keys d)).
Qed.

End DictFacts.

Lemma columns_fill_nodup (ks acc : list string) :
  NoDup (acc ++ ks) ->
  fold_left (fun acc k => if mem_str k acc then acc else (acc ++ [k]))
            ks acc
  = (acc ++ ks).
Proof.
  revert acc. induction ks as [| k ks IH]; intros acc Hnd; simpl.
  - now rewrite app_nil_r.
  - assert (Hfresh : mem_str k acc = false).
    { unfold mem_str. apply not_true_is_false. intros Hex.
      apply existsb_exists in Hex. destruct Hex as [k' [HI E]].
      apply String.eqb_eq in E. subst k'.
      apply NoDup_remove_2 in Hnd. apply Hnd. apply in_or_app. now left. }
    rewrite Hfresh. rewrite IH; rewrite <- app_assoc; simpl;
      [reflexivity | exact Hnd].
Qed.

(** The frame of a single record: its keys are the columns and its values
    the only row. *)
Lemma pd_DataFrame_single (d : dict value) :
  NoDup (dict_keys d) ->
  pd_DataFrame [d] = {| columns := dict_keys d; rows := [dict_values d] |}.
Proof.
  intros Hnd. unfold pd_DataFrame. simpl.
  rewrite (columns_fill_nodup (dict_keys d) []) by exact Hnd. simpl.
  f_equal. f_equal.
  unfold dict_keys, dict_values. rewrite map_map.
  apply map_ext_in. intros [k v] HI. simpl.
  now rewrite (dict_get_In d k v Hnd HI).
Qed.

Lemma df_at_single (d : dict value) (c : string) :
  df_at {| columns := dict_keys d; rows := [dict_values d] |} 0 c
  = dict_get d c.
Proof.
  unfold df_at. simpl. apply dict_get_by_index.
Qed.

Lemma distinct_NoDup (l : list string) : distinct l = true -> NoDup l.
Proof.
  induction l as [| k l IH]; simpl; intros H.
  - constructor.
  - apply andb_prop in H. destruct H as [Hk Hl].
    constructor; [| now apply IH].
    intros HI. apply negb_true_iff in Hk.
    assert (Hex : mem_str k l = true).
    { unfold mem_str. apply existsb_exists. exists k. split; [exact HI |].
      apply String.eqb_refl. }
    congruence.
Qed.

(* ===================================================================== *)
(** ** The feature encoder *)
(* ===================================================================== *)

Lemma py_eq_str (x : value) (s : string) :
  py_eq x (VStr s) = true <-> x = VStr s.
Proof.
  destruct x; simpl; try (split; [discriminate | intros H; discriminate H]).
  rewrite String.eqb_eq. split; [now intros -> | now inversion 1].
Qed.

Lemma one_if_eq_miss (x : value) (s : string) :
  x <> VStr s -> one_if_eq x s = VInt 0.
Proof.
  intros Hne. unfold one_if_eq.
  destruct (py_eq x (VStr s)) eqn:E; [| reflexivity].
  apply py_eq_str in E. contradiction.
Qed.

Section Encoder.

Variable int_of_str : string -> option Z.

Variables credit_score location gender age tenure balance num_products
          has_credit_card is_active_member estimated_salary : value.

(** The encoder returns exactly when [int] accepts both flags, and then
    it returns the dict as displayed, the frame of that single record, and
    the world as it found it. *)
Lemma prepare_input_run (h a : value) (w : world) :
  py_int int_of_str has_credit_card = Ok h ->
  py_int int_of_str is_active_member = Ok a ->
  prepare_input int_of_str credit_score location gender age tenure balance
                num_products has_credit_card is_active_member
                estimated_salary w
  = (Ok ({| columns := feature_names;
            rows := [[ credit_score; age; tenure; balance; num_products;
                       h; a; estimated_salary;
                       one_if_eq location "France";
                       one_if_eq location "Germany";
                       one_if_eq location "Spain";
                       one_if_eq gender "Male";
                       one_if_eq gender "Female" ]] |},
         [ ("CreditScore", credit_score);
           ("Age", age);
           ("Tenure", tenure);
           ("Balance", balance);
           ("NumOfProducts", num_products);
           ("HasCrCard", h);
           ("IsActiveMember", a);
           ("EstimatedSalary", estimated_salary);
           ("Geography_France", one_if_eq location "France");
           ("Geography_Germany", one_if_eq location "Germany");
           ("Geography_Spain", one_if_eq location "Spain");
           ("Gender_Male", one_if_eq gender "Male");
           ("Gender_Female", one_if_eq gender "Female") ]), w).
Proof.
  intros Hh Ha. unfold prepare_input, bind, lift, ret.
  rewrite Hh, Ha.
  match goal with
  | |- context [dict_display ?items] =>
      assert (Hnd : NoDup (dict_keys items))
        by (apply distinct_NoDup; reflexivity);
      rewrite (dict_display_nodup items Hnd);
      rewrite (pd_DataFrame_single items Hnd)
  end.
  reflexivity.
Qed.

Lemma prepare_input_raises_first (e : exn) (w : world) :
  py_int int_of_str has_credit_card = Raise e ->
  prepare_input int_of_str credit_score location gender age tenure balance
                num_products has_credit_card is_active_member
                estimated_salary w
  = (Raise e, w).
Proof.
  intros He. unfold prepare_input, bind, lift. now rewrite He.
Qed.

Lemma prepare_input_raises_second (h : value) (e : exn) (w : world) :
  py_int int_of_str has_credit_card = Ok h ->
  py_int int_of_str is_active_member = Raise e ->
  prepare_input int_of_str credit_score location gender age tenure balance
                num_products has_credit_card is_active_member
                estimated_salary w
  = (Raise e, w).
Proof.
  intros Hh He. unfold prepare_input, bind, lift. now rewrite Hh, He.
Qed.

End Encoder.

(** C1.  For a customer whose location is one of France, Germany, Spain and
    whose gender is one of Male, Female (the two flags being booleans, as
    the check boxes give them), the encoder returns a vector of 13 fields
    in which exactly one of the three location indicators is 1, exactly one
    of the two gender indicators is 1, and the other eight fields equal the
    raw inputs: six hold the input itself, and the two flags hold the
    integer that Python's [==] equates with the boolean.  This is stated of
    the dict and, field by field, of the frame that goes to the models: the
    frame has exactly one row, of 13 cells, and the cell under each name is
    the dict's value under that name. *)
Theorem prepare_input_one_hot
  (int_of_str : string -> option Z)
  (credit_score age tenure balance num_products estimated_salary : value)
  (location gender : string) (has_credit_card is_active_member : bool)
  (w : world) :
  In location recognised_locations ->
  In gender recognised_genders ->
  exists input_df input_dict,
    prepare_input int_of_str credit_score (VStr location) (VStr gender) age
                  tenure balance num_products (VBool has_credit_card)
                  (VBool is_active_member) estimated_salary w
    = (Ok (input_df, input_dict), w)
    /\ dict_keys input_dict = feature_names
    /\ List.length input_dict = 13%nat
    /\ columns input_df = feature_names
    /\ all_bits input_dict location_indicators
    /\ count_ones input_dict location_indicators = 1%nat
    /\ all_bits input_dict gender_indicators
    /\ count_ones input_dict gender_indicators = 1%nat
    /\ dict_get input_dict "CreditScore" = Some credit_score
    /\ dict_get input_dict "Age" = Some age
    /\ dict_get input_dict "Tenure" = Some tenure
    /\ dict_get input_dict "Balance" = Some balance
    /\ dict_get input_dict "NumOfProducts" = Some num_products
    /\ dict_get input_dict "EstimatedSalary" = Some estimated_salary
    /\ (exists v, dict_get input_dict "HasCrCard" = Some v
                  /\ py_eq v (VBool has_credit_card) = true)
    /\ (exists v, dict_get input_dict "IsActiveMember" = Some v
                  /\ py_eq v (VBool is_active_member) = true)
    /\ (exists row, rows input_df = [row] /\ List.length row = 13%nat
                    /\ combine (columns input_df) row = input_dict)
    /\ all_bits_row input_df 0 location_indicators
    /\ count_ones_row input_df 0 location_indicators = 1%nat
    /\ all_bits_row input_df 0 gender_indicators
    /\ count_ones_row input_df 0 gender_indicators = 1%nat
    /\ df_at input_df 0 "CreditScore" = Some credit_score
    /\ df_at input_df 0 "Age" = Some age
    /\ df_at input_df 0 "Tenure" = Some tenure
    /\ df_at input_df 0 "Balance" = Some balance
    /\ df_at input_df 0 "NumOfProducts" = Some num_products
    /\ df_at input_df 0 "EstimatedSalary" = Some estimated_salary
    /\ (exists v, df_at input_df 0 "HasCrCard" = Some v
                  /\ py_eq v (VBool has_credit_card) = true)
    /\ (exists v, df_at input_df 0 "IsActiveMember" = Some v
                  /\ py_eq v (VBool is_active_member) = true)
    /\ (forall name, df_at input_df 0 name = dict_get input_dict name).
Proof.
  intros Hloc Hgen.
  eexists. eexists. split.
  { apply prepare_input_run; reflexivity. }
  assert (Hflag : forall b, py_eq (VInt (Z.b2z b)) (VBool b) = true)
    by (intros []; reflexivity).
  unfold all_bits, all_bits_row, location_indicators, gender_indicators.
  simpl in Hloc, Hgen.
  destruct Hloc as [<- | [<- | [<- | []]]];
    destruct Hgen as [<- | [<- | []]];
    repeat match goal with
           | |- _ /\ _ => split
           | |- Forall _ _ => constructor
           | |- exists v, _ = Some v /\ _ =>
               eexists; split; [reflexivity | apply Hflag]
           | |- exists row, rows _ = [row] /\ _ =>
               eexists; split; [reflexivity | split; reflexivity]
           | |- forall name, df_at _ 0 name = dict_get ?d name =>
               intros name; exact (df_at_single d name)
           end;
    try reflexivity; (left; reflexivity) || (right; reflexivity).
Qed.

Lemma prepare_input_one_hot_witness :
  exists input_df input_dict,
    prepare_input (fun _ => None) (VInt 650) (VStr "Spain") (VStr "Female")
                  (VInt 40) (VInt 3) (VFloat (F64.of_Z 50000)) (VInt 2)
                  (VBool true) (VBool true) (VFloat (F64.of_Z 60000))
                  {| fs := []; page := []; cursor := None |}
    = (Ok (input_df, input_dict), {| fs := []; page := []; cursor := None |})
    /\ dict_get input_dict "Geography_Spain" = Some (VInt 1)
    /\ count_ones input_dict location_indicators = 1%nat
    /\ count_ones input_dict gender_indicators = 1%nat
    /\ count_ones_row input_df 0 location_indicators = 1%nat.
Proof.
  destruct (prepare_input_one_hot (fun _ => None) (VInt 650) (VInt 40)
              (VInt 3) (VFloat (F64.of_Z 50000)) (VInt 2)
              (VFloat (F64.of_Z 60000)) "Spain" "Female" true true
              {| fs := []; page := []; cursor := None |})
    as (df & d & Hrun & _ & _ & _ & _ & Hloc & _ & Hgen
        & _ & _ & _ & _ & _ & _ & _ & _ & _ & _ & Hrowloc & _).
  - simpl. right. right. left. reflexivity.
  - simpl. right. left. reflexivity.
  - exists df, d. split; [exact Hrun |].
    split; [| split; [exact Hloc | split; [exact Hgen | exact Hrowloc]]].
    vm_compute in Hrun. inversion Hrun. reflexivity.
Defined.

(** C5.  When the location is none of the three recognised strings (say
    "Italy"), the encoder still returns, leaves the page untouched, and
    sets all three location indicators to 0, in the dict and in the frame.
    The two flags are assumed to be values [int] accepts, which is what the
    encoder needs in order to return at all. *)
Theorem prepare_input_unrecognised_location
  (int_of_str : string -> option Z)
  (credit_score location gender age tenure balance num_products
   has_credit_card is_active_member estimated_salary h a : value)
  (w : world) :
  ~ In location (map VStr recognised_locations) ->
  py_int int_of_str has_credit_card = Ok h ->
  py_int int_of_str is_active_member = Ok a ->
  exists input_df input_dict,
    prepare_input int_of_str credit_score location gender age tenure balance
                  num_products has_credit_card is_active_member
                  estimated_salary w
    = (Ok (input_df, input_dict), w)
    /\ Forall (fun k => dict_get input_dict k = Some (VInt 0)
                        /\ df_at input_df 0 k = Some (VInt 0))
              location_indicators
    /\ count_ones input_dict location_indicators = 0%nat.
Proof.
  intros Hloc Hh Ha.
  eexists. eexists. split.
  { apply prepare_input_run; eassumption. }
  simpl in Hloc.
  assert (HF : one_if_eq location "France" = VInt 0)
    by (apply one_if_eq_miss; intros E; apply Hloc; rewrite E; tauto).
  assert (HG : one_if_eq location "Germany" = VInt 0)
    by (apply one_if_eq_miss; intros E; apply Hloc; rewrite E; tauto).
  assert (HS : one_if_eq location "Spain" = VInt 0)
    by (apply one_if_eq_miss; intros E; apply Hloc; rewrite E; tauto).
  rewrite HF, HG, HS.
  split; [repeat constructor | reflexivity].
Qed.

Lemma prepare_input_unrecognised_location_witness :
  exists input_df input_dict,
    prepare_input (fun _ => None) (VInt 650) (VStr "Italy") (VStr "Male")
                  (VInt 40) (VInt 3) (VFloat (F64.of_Z 50000)) (VInt 2)
                  (VBool true) (VBool false) (VFloat (F64.of_Z 60000))
                  {| fs := []; page := []; cursor := None |}
    = (Ok (input_df, input_dict), {| fs := []; page := []; cursor := None |})
    /\ Forall (fun k => dict_get input_dict k = Some (VInt 0)
                        /\ df_at input_df 0 k = Some (VInt 0))
              location_indicators
    /\ count_ones input_dict location_indicators = 0%nat.
Proof.
  apply (prepare_input_unrecognised_location (fun _ => None) (VInt 650)
           (VStr "Italy") (VStr "Male") (VInt 40) (VInt 3)
           (VFloat (F64.of_Z 50000)) (VInt 2) (VBool true) (VBool false)
           (VFloat (F64.of_Z 60000)) (VInt 1) (VInt 0)).
  - simpl. intros [H | [H | [H | []]]]; discriminate H.
  - reflexivity.
  - reflexivity.
Defined.

(** C6.  For location "Germany" and gender "Female", whatever the other
    fields are (the two flags being values [int] accepts), the indicator
    fields are Geography_France = 0, Geography_Germany = 1,
    Geography_Spain = 0, Gender_Male = 0, Gender_Female = 1, in the dict
    and in the one row of the frame that goes to the models. *)
Theorem prepare_input_germany_female
  (int_of_str : string -> option Z)
  (credit_score age tenure balance num_products
   has_credit_card is_active_member estimated_salary h a : value)
  (w : world) :
  py_int int_of_str has_credit_card = Ok h ->
  py_int int_of_str is_active_member = Ok a ->
  exists input_df input_dict,
    prepare_input int_of_str credit_score (VStr "Germany") (VStr "Female")
                  age tenure balance num_products has_credit_card
                  is_active_member estimated_salary w
    = (Ok (input_df, input_dict), w)
    /\ dict_get input_dict "Geography_France" = Some (VInt 0)
    /\ dict_get input_dict "Geography_Germany" = Some (VInt 1)
    /\ dict_get input_dict "Geography_Spain" = Some (VInt 0)
    /\ dict_get input_dict "Gender_Male" = Some (VInt 0)
    /\ dict_get input_dict "Gender_Female" = Some (VInt 1)
    /\ List.length (rows input_df) = 1%nat
    /\ columns input_df = feature_names
    /\ df_at input_df 0 "Geography_France" = Some (VInt 0)
    /\ df_at input_df 0 "Geography_Germany" = Some (VInt 1)
    /\ df_at input_df 0 "Geography_Spain" = Some (VInt 0)
    /\ df_at input_df 0 "Gender_Male" = Some (VInt 0)
    /\ df_at input_df 0 "Gender_Female" = Some (VInt 1).
Proof.
  intros Hh Ha.
  eexists. eexists. split.
  { apply prepare_input_run; eassumption. }
  repeat split.
Qed.

Lemma prepare_input_germany_female_witness :
  exists input_df input_dict,
    prepare_input (fun _ => None) (VInt 700) (VStr "Germany") (VStr "Female")
                  (VInt 31) (VInt 0) (VFloat F64.zero) (VInt 1)
                  (VBool false) (VInt 1) VNone
                  {| fs := []; page := []; cursor := None |}
    = (Ok (input_df, input_dict), {| fs := []; page := []; cursor := None |})
    /\ dict_get input_dict "Geography_France" = Some (VInt 0)
    /\ dict_get input_dict "Geography_Germany" = Some (VInt 1)
    /\ dict_get input_dict "Geography_Spain" = Some (VInt 0)
    /\ dict_get input_dict "Gender_Male" = Some (VInt 0)
    /\ dict_get input_dict "Gender_Female" = Some (VInt 1)
    /\ List.length (rows input_df) = 1%nat
    /\ columns input_df = feature_names
    /\ df_at input_df 0 "Geography_France" = Some (VInt 0)
    /\ df_at input_df 0 "Geography_Germany" = Some (VInt 1)
    /\ df_at input_df 0 "Geography_Spain" = Some (VInt 0)
    /\ df_at input_df 0 "Gender_Male" = Some (VInt 0)
    /\ df_at input_df 0 "Gender_Female" = Some (VInt 1).
Proof.
  apply (prepare_input_germany_female (fun _ => None) (VInt 700) (VInt 31)
           (VInt 0) (VFloat F64.zero) (VInt 1) (VBool false) (VInt 1) VNone
           (VInt 0) (VInt 1));
    reflexivity.
Defined.

(** C8.  On well-typed input (the types the page's widgets produce) the
    encoder is total, pure and deterministic: there is one output that
    every run returns, whatever the world it starts in, and every run
    leaves that world as it was. *)
Theorem prepare_input_pure_total
  (int_of_str : string -> option Z)
  (credit_score location gender age tenure balance num_products
   has_credit_card is_active_member estimated_salary : value) :
  well_typed_input credit_score location gender age tenure balance
                   num_products has_credit_card is_active_member
                   estimated_salary = true ->
  exists out,
    forall w,
      prepare_input int_of_str credit_score location gender age tenure
                    balance num_products has_credit_card is_active_member
                    estimated_salary w
      = (Ok out, w).
Proof.
  unfold well_typed_input. intros Hty.
  repeat (apply andb_prop in Hty; destruct Hty as [Hty ?]).
  destruct has_credit_card as [| b1 | | |]; try discriminate.
  destruct is_active_member as [| b2 | | |]; try discriminate.
  eexists. intros w. apply prepare_input_run; reflexivity.
Qed.

Lemma prepare_input_pure_total_witness :
  exists out,
    forall w,
      prepare_input (fun _ => None) (VInt 650) (VStr "Spain") (VStr "Female")
                    (VInt 40) (VInt 3) (VFloat (F64.of_Z 50000)) (VInt 2)
                    (VBool true) (VBool true) (VFloat (F64.of_Z 60000)) w
      = (Ok out, w).
Proof.
  apply (prepare_input_pure_total (fun _ => None) (VInt 650) (VStr "Spain")
           (VStr "Female") (VInt 40) (VInt 3) (VFloat (F64.of_Z 50000))
           (VInt 2) (VBool true) (VBool true) (VFloat (F64.of_Z 60000))).
  reflexivity.
Defined.

(** C9.  The frame and the dict that the encoder returns hold the same
    encoding: the frame has exactly one row, its columns are the 13 field
    names, each field name is a key of the dict, and the row's cell under
    any name is the dict's value under that name.  This is for every input
    on which the encoder returns, that is, whenever [int] accepts the two
    flags. *)
Theorem prepare_input_frame_matches_dict
  (int_of_str : string -> option Z)
  (credit_score location gender age tenure balance num_products
   has_credit_card is_active_member estimated_salary h a : value)
  (w : world) :
  py_int int_of_str has_credit_card = Ok h ->
  py_int int_of_str is_active_member = Ok a ->
  exists input_df input_dict,
    prepare_input int_of_str credit_score location gender age tenure balance
                  num_products has_credit_card is_active_member
                  estimated_salary w
    = (Ok (input_df, input_dict), w)
    /\ List.length (rows input_df) = 1%nat
    /\ columns input_df = feature_names
    /\ Forall (fun name => exists v, dict_get input_dict name = Some v
                                     /\ df_at input_df 0 name = Some v)
              feature_names
    /\ (forall name, df_at input_df 0 name = dict_get input_dict name).
Proof.
  intros Hh Ha.
  eexists. eexists. split.
  { apply prepare_input_run; eassumption. }
  split; [reflexivity |]. split; [reflexivity |].
  split.
  - unfold feature_names.
    repeat (constructor; [eexists; split; reflexivity |]). constructor.
  - intros name.
    match goal with
    | |- df_at _ 0 name = dict_get ?d name => exact (df_at_single d name)
    end.
Qed.

Lemma prepare_input_frame_matches_dict_witness :
  exists input_df input_dict,
    prepare_input (fun _ => None) (VInt 650) (VStr "Spain") (VStr "Female")
                  (VInt 40) (VInt 3) (VFloat (F64.of_Z 50000)) (VInt 2)
                  (VBool true) (VBool true) (VFloat (F64.of_Z 60000))
                  {| fs := []; page := []; cursor := None |}
    = (Ok (input_df, input_dict), {| fs := []; page := []; cursor := None |})
    /\ List.length (rows input_df) = 1%nat
    /\ columns input_df = feature_names
    /\ Forall (fun name => exists v, dict_get input_dict name = Some v
                                     /\ df_at input_df 0 name = Some v)
              feature_names
    /\ (forall name, df_at input_df 0 name = dict_get input_dict name).
Proof.
  apply (prepare_input_frame_matches_dict (fun _ => None) (VInt 650)
           (VStr "Spain") (VStr "Female") (VInt 40) (VInt 3)
           (VFloat (F64.of_Z 50000)) (VInt 2) (VBool true) (VBool true)
           (VFloat (F64.of_Z 60000)) (VInt 1) (VInt 1));
    reflexivity.
Defined.

(** C10.  Whatever the other inputs, boolean flags has_credit_card and
    is_active_member reach the feature vector as the integers 0 or 1 (the
    result of [int]): HasCrCard and IsActiveMember hold an [int] that is 0
    for False and 1 for True, in the dict and in the frame. *)
Theorem prepare_input_flags_are_bits
  (int_of_str : string -> option Z)
  (credit_score location gender age tenure balance num_products
   estimated_salary : value)
  (has_credit_card is_active_member : bool) (w : world) :
  exists input_df input_dict hcc iam,
    prepare_input int_of_str credit_score location gender age tenure balance
                  num_products (VBool has_credit_card)
                  (VBool is_active_member) estimated_salary w
    = (Ok (input_df, input_dict), w)
    /\ dict_get input_dict "HasCrCard" = Some (VInt hcc)
    /\ df_at input_df 0 "HasCrCard" = Some (VInt hcc)
    /\ dict_get input_dict "IsActiveMember" = Some (VInt iam)
    /\ df_at input_df 0 "IsActiveMember" = Some (VInt iam)
    /\ hcc = (if has_credit_card then 1 else 0)
    /\ iam = (if is_active_member then 1 else 0)
    /\ (hcc = 0 \/ hcc = 1)
    /\ (iam = 0 \/ iam = 1).
Proof.
  eexists. eexists. exists (Z.b2z has_credit_card), (Z.b2z is_active_member).
  split.
  { apply prepare_input_run; reflexivity. }
  repeat split; try reflexivity.
  - destruct has_credit_card; auto.
  - destruct is_active_member; auto.
Qed.

(* ===================================================================== *)
(** ** The model loader *)
(* ===================================================================== *)

Section Loader.

Variable pickle_load : string -> result model.

(** A readable artifact that unpickles is returned, and nothing is
    shown. *)
Lemma load_model_loaded filename content m w :
  dict_get (fs w) filename = Some (RegularFile content) ->
  pickle_load content = Ok m ->
  load_model pickle_load filename w = (Ok m, w).
Proof.
  intros Hfile Hload.
  unfold load_model, try_except, bind, open_rb, lift.
  now rewrite Hfile, Hload.
Qed.

(** Only the two exception classes named in [load_model] are handled:
    any other exception of the unpickler leaves the function. *)
Lemma load_model_propagates filename content e w :
  dict_get (fs w) filename = Some (RegularFile content) ->
  pickle_load content = Raise e ->
  e <> UnpicklingError ->
  (forall path, e <> FileNotFoundError path) ->
  load_model pickle_load filename w = (Raise e, w).
Proof.
  intros Hfile Hload Hu Hf.
  unfold load_model, try_except, bind, open_rb, lift.
  rewrite Hfile, Hload.
  destruct e; try reflexivity.
  - now destruct (Hf path).
  - now destruct Hu.
Qed.

End Loader.

(** What the two handlers of [load_model] do cover: when the path is not
    found, or when the artifact is there and the unpickler rejects it with
    UnpicklingError, [load_model] does not raise: it shows an error message
    naming the file (not found, respectively possibly corrupted) and returns
    [None], no model. *)
Lemma load_model_reports_fault
  (pickle_load : string -> result model) (filename msg : string) (w : world) :
  artifact_fault pickle_load w filename msg ->
  load_model pickle_load filename w = (Ok None, shows w [StError msg]).
Proof.
  intros [Hmissing Hfree | content Hfile Hcorrupt];
    unfold load_model, try_except, bind, open_rb, lift.
  - rewrite Hmissing, Hfree. reflexivity.
  - rewrite Hfile, Hcorrupt. reflexivity.
Qed.

Lemma load_model_reports_fault_example :
  load_model (fun _ => Raise UnpicklingError) "xgb_model.pkl" empty_world
  = (Ok None,
     shows empty_world [StError "Model file 'xgb_model.pkl' not found."])
  /\ load_model (fun _ => Raise UnpicklingError) "rf_model.pkl"
       {| fs := [("rf_model.pkl", RegularFile "garbage")];
          page := []; cursor := None |}
     = (Ok None,
        shows {| fs := [("rf_model.pkl", RegularFile "garbage")];
                 page := []; cursor := None |}
              [StError "Error loading model from 'rf_model.pkl'. File might be corrupted."]).
Proof.
  split.
  - apply (load_model_reports_fault (fun _ => Raise UnpicklingError)
             "xgb_model.pkl" _ empty_world).
    exact (fault_not_found (fun _ => Raise UnpicklingError) empty_world
             "xgb_model.pkl" eq_refl eq_refl).
  - apply (load_model_reports_fault (fun _ => Raise UnpicklingError)
             "rf_model.pkl" _
             {| fs := [("rf_model.pkl", RegularFile "garbage")];
                page := []; cursor := None |}).
    exact (fault_corrupt (fun _ => Raise UnpicklingError)
             {| fs := [("rf_model.pkl", RegularFile "garbage")];
                page := []; cursor := None |}
             "rf_model.pkl" "garbage" eq_refl eq_refl).
Defined.

(* ===================================================================== *)
(** ** The prediction aggregator *)
(* ===================================================================== *)

Lemma positive_proba_answers (m : model) (input_df : DataFrame)
      (p : F64.float) (w : world) :
  answers m input_df p -> positive_proba m input_df w = (Ok p, w).
Proof.
  intros (c & proba & row & -> & Hproba & Hrow & Hp).
  unfold positive_proba, bind, lift. rewrite Hproba, Hrow, Hp. reflexivity.
Qed.

(** A missing model stops the aggregation: reading [predict_proba] off
    [None] raises. *)
Lemma positive_proba_missing (input_df : DataFrame) (w : world) :
  positive_proba None input_df w = (Raise (AttributeError "predict_proba"), w).
Proof. reflexivity. Qed.

(** The aggregation stops at the first model that is missing, before
    anything is shown. *)
Lemma make_predictions_missing_model (models : registry)
      (input_df : DataFrame) (input_dict : dict value) (w : world) :
  xgboost_model models = None ->
  make_predictions models input_df input_dict w
  = (Raise (AttributeError "predict_proba"), w).
Proof.
  intros Hnone. unfold make_predictions, model_probabilities, bind.
  rewrite Hnone. reflexivity.
Qed.

Section Aggregator.

Variable models : registry.
Variable input_df : DataFrame.
Variables xgb rf knn : F64.float.

Hypothesis xgb_answers : answers (xgboost_model models) input_df xgb.
Hypothesis rf_answers : answers (random_forest_model models) input_df rf.
Hypothesis knn_answers : answers (knn_model models) input_df knn.

Lemma model_probabilities_run (w : world) :
  model_probabilities models input_df w
  = (Ok [ ("XGBoost", xgb); ("Random Forest", rf);
          ("K-Nearest Neighbors", knn) ], w).
Proof.
  unfold model_probabilities, bind.
  rewrite (positive_proba_answers _ _ _ w xgb_answers).
  rewrite (positive_proba_answers _ _ _ w rf_answers).
  rewrite (positive_proba_answers _ _ _ w knn_answers).
  unfold ret. rewrite dict_display_nodup; [reflexivity |].
  apply distinct_NoDup. reflexivity.
Qed.

Lemma make_predictions_run (input_dict : dict value) (w : world) :
  make_predictions models input_df input_dict w
  = (Ok (np_mean [xgb; rf; knn]),
     {| fs := fs w;
        page := page w ++ prediction_page (cursor w) xgb rf knn;
        cursor := cursor w |}).
Proof.
  destruct w as [files shown_so_far here].
  unfold make_predictions, bind at 1.
  rewrite model_probabilities_run.
  cbv [bind ret for_each dict_items dict_values dict_keys map fst snd
       st_markdown st_write st_columns2 st_plotly_chart with_column
       set_cursor emit create_gauge_chart create_model_probability_chart
       fs page cursor prediction_page].
  repeat rewrite <- app_assoc. reflexivity.
Qed.

End Aggregator.

(** The three decimal literals, bit for bit. *)
Lemma lit_bits :
  lit_0_2 = S754_finite false 7205759403792794 (-55)
  /\ lit_0_5 = S754_finite false 4503599627370496 (-53)
  /\ lit_0_8 = S754_finite false 7205759403792794 (-53).
Proof. repeat split; vm_compute; reflexivity. Qed.

(** The mean is taken in float arithmetic, every operation rounded: that
    of 0.1, 0.2, 0.3 is the float just above 0.2. *)
Lemma np_mean_rounds :
  np_mean [F64.of_ratio 1 10; F64.of_ratio 2 10; F64.of_ratio 3 10]
  = S754_finite false 7205759403792795 (-55).
Proof. vm_compute. reflexivity. Qed.

(** Three floats that are 0.2, 0.5, 0.8 in some order have mean 0.5. *)
Lemma np_mean_example (p1 p2 p3 : F64.float) :
  Permutation [p1; p2; p3] [lit_0_2; lit_0_5; lit_0_8] ->
  np_mean [p1; p2; p3] = lit_0_5.
Proof.
  intros Hperm.
  assert (Hnd : NoDup [p1; p2; p3]).
  { apply (Permutation_NoDup (Permutation_sym Hperm)).
    repeat constructor; simpl; intros H;
      repeat (destruct H as [H | H]; [vm_compute in H; discriminate H |]);
      exact H. }
  assert (Hin : forall p, In p [p1; p2; p3] ->
                          p = lit_0_2 \/ p = lit_0_5 \/ p = lit_0_8).
  { intros p HI. apply (Permutation_in _ Hperm) in HI. simpl in HI.
    intuition auto. }
  assert (H1 := Hin p1 (or_introl eq_refl)).
  assert (H2 := Hin p2 (or_intror (or_introl eq_refl))).
  assert (H3 := Hin p3 (or_intror (or_intror (or_introl eq_refl)))).
  inversion Hnd as [| ? ? Hn1 Hnd1]; subst.
  inversion Hnd1 as [| ? ? Hn2 Hnd2]; subst.
  simpl in Hn1, Hn2.
  destruct H1 as [-> | [-> | ->]];
    destruct H2 as [-> | [-> | ->]];
    destruct H3 as [-> | [-> | ->]];
    try (exfalso; tauto);
    vm_compute; reflexivity.
Qed.

(** C2.  When the three models answer [xgb], [rf] and [knn], the aggregate
    that [make_predictions] returns is their unweighted arithmetic mean in
    float arithmetic: the three are added, each once, and the sum is divided
    by 3.  In particular when they are 0.2, 0.5 and 0.8, in any order, the
    aggregate is the float 0.5 exactly. *)
Theorem make_predictions_mean
  (models : registry) (input_df : DataFrame) (input_dict : dict value)
  (xgb rf knn : F64.float) (w : world) :
  answers (xgboost_model models) input_df xgb ->
  answers (random_forest_model models) input_df rf ->
  answers (knn_model models) input_df knn ->
  fst (make_predictions models input_df input_dict w)
  = Ok (F64.div (F64.add (F64.add (F64.add F64.zero xgb) rf) knn)
                (F64.of_Z 3))
  /\ (Permutation [xgb; rf; knn] [lit_0_2; lit_0_5; lit_0_8] ->
      fst (make_predictions models input_df input_dict w) = Ok lit_0_5).
Proof.
  intros Hx Hr Hk.
  rewrite (make_predictions_run models input_df xgb rf knn Hx Hr Hk).
  split.
  - reflexivity.
  - intros Hperm. simpl. f_equal. now apply np_mean_example.
Qed.

Lemma sample_registry_answers :
  answers (xgboost_model sample_registry) sample_frame lit_0_2
  /\ answers (random_forest_model sample_registry) sample_frame lit_0_5
  /\ answers (knn_model sample_registry) sample_frame lit_0_8.
Proof.
  repeat split; eexists; eexists; eexists;
    (split; [reflexivity |]); (split; [reflexivity |]); split; reflexivity.
Qed.

Lemma make_predictions_mean_witness :
  fst (make_predictions sample_registry sample_frame sample_dict empty_world)
  = Ok lit_0_5.
Proof.
  destruct sample_registry_answers as (Hx & Hr & Hk).
  apply (make_predictions_mean sample_registry sample_frame sample_dict
           lit_0_2 lit_0_5 lit_0_8 empty_world Hx Hr Hk).
  apply Permutation_refl.
Defined.

(** C7.  When the three registered models answer, the aggregator's
    probability map has exactly three entries, one per model, under the
    names XGBoost, Random Forest and K-Nearest Neighbors in this order, and
    each entry is what that model's [predict_proba] gives for class 1 of the
    first row of the one frame all three are called with; the map is also
    what the bar chart shows. *)
Theorem model_probabilities_three_entries
  (models : registry) (input_df : DataFrame) (input_dict : dict value)
  (xgb rf knn : F64.float) (w : world) :
  answers (xgboost_model models) input_df xgb ->
  answers (random_forest_model models) input_df rf ->
  answers (knn_model models) input_df knn ->
  exists probabilities,
    model_probabilities models input_df w = (Ok probabilities, w)
    /\ List.length probabilities = 3%nat
    /\ dict_keys probabilities
       = ["XGBoost"; "Random Forest"; "K-Nearest Neighbors"]
    /\ dict_get probabilities "XGBoost" = Some xgb
    /\ dict_get probabilities "Random Forest" = Some rf
    /\ dict_get probabilities "K-Nearest Neighbors" = Some knn
    /\ exists fig others,
         create_model_probability_chart probabilities w = (Ok fig, w)
         /\ page (snd (make_predictions models input_df input_dict w))
            = page w ++ others
                ++ [{| container := Some 1%nat;
                       shown := StPlotlyChart fig true |}].
Proof.
  intros Hx Hr Hk.
  eexists. split.
  { apply (model_probabilities_run models input_df xgb rf knn Hx Hr Hk). }
  repeat (split; [reflexivity |]).
  eexists. eexists. split; [reflexivity |].
  rewrite (make_predictions_run models input_df xgb rf knn Hx Hr Hk).
  simpl. f_equal.
  unfold prediction_page.
  match goal with
  | |- [?e1; ?e2; ?e3; ?e4; ?e5; ?e6; ?e7; ?e8; ?e9] = _ =>
      instantiate (1 := [e1; e2; e3; e4; e5; e6; e7; e8])
  end.
  reflexivity.
Qed.

Lemma model_probabilities_three_entries_witness :
  exists probabilities,
    model_probabilities sample_registry sample_frame empty_world
    = (Ok probabilities, empty_world)
    /\ dict_items probabilities
       = [ ("XGBoost", lit_0_2); ("Random Forest", lit_0_5);
           ("K-Nearest Neighbors", lit_0_8) ].
Proof.
  destruct sample_registry_answers as (Hx & Hr & Hk).
  destruct (model_probabilities_three_entries sample_registry sample_frame
              sample_dict lit_0_2 lit_0_5 lit_0_8 empty_world Hx Hr Hk)
    as (probabilities & Hrun & _).
  exists probabilities. split; [exact Hrun |].
  vm_compute in Hrun. inversion Hrun. vm_compute. reflexivity.
Defined.

(** C3, as stated, fails: [make_predictions] does not leave the world as it
    found it.  Called on an empty page with three models that answer, it
    leaves nine elements on the page. *)
Lemma make_predictions_not_pure :
  snd (make_predictions sample_registry sample_frame sample_dict empty_world)
  <> empty_world
  /\ List.length
       (page (snd (make_predictions sample_registry sample_frame sample_dict
                                    empty_world)))
     = 9%nat.
Proof.
  split.
  - intros H. apply (f_equal page) in H. vm_compute in H. discriminate H.
  - vm_compute. reflexivity.
Qed.

(** C3, amended.  When the three models answer, the value
    [make_predictions] returns is computed from the frame and the models
    alone, the same in every world, and the files are left alone; but the
    function renders its result itself: it appends to the page a heading,
    one line per model, the line of the average, a two-column layout, the
    gauge chart and a sentence in the first column, the bar chart in the
    second, and then gives the current container back. *)
Theorem make_predictions_renders
  (models : registry) (input_df : DataFrame) (input_dict : dict value)
  (xgb rf knn : F64.float) (w : world) :
  answers (xgboost_model models) input_df xgb ->
  answers (random_forest_model models) input_df rf ->
  answers (knn_model models) input_df knn ->
  fst (make_predictions models input_df input_dict w)
  = Ok (np_mean [xgb; rf; knn])
  /\ fs (snd (make_predictions models input_df input_dict w)) = fs w
  /\ cursor (snd (make_predictions models input_df input_dict w)) = cursor w
  /\ page (snd (make_predictions models input_df input_dict w))
     = page w ++ prediction_page (cursor w) xgb rf knn
  /\ List.length (prediction_page (cursor w) xgb rf knn) = 9%nat.
Proof.
  intros Hx Hr Hk.
  rewrite (make_predictions_run models input_df xgb rf knn Hx Hr Hk).
  repeat split.
Qed.

Lemma make_predictions_renders_witness :
  page (snd (make_predictions sample_registry sample_frame sample_dict
                              empty_world))
  = prediction_page None lit_0_2 lit_0_5 lit_0_8.
Proof.
  destruct sample_registry_answers as (Hx & Hr & Hk).
  destruct (make_predictions_renders sample_registry sample_frame sample_dict
              lit_0_2 lit_0_5 lit_0_8 empty_world Hx Hr Hk)
    as (_ & _ & _ & Hpage & _).
  exact Hpage.
Defined.

(* ===================================================================== *)
(** ** Choosing a customer: options, selection, preselected values *)
(* ===================================================================== *)

Lemma str_app_assoc (a b c : string) :
  ((a ++ b) ++ c)%string = (a ++ b ++ c)%string.
Proof. induction a as [| x a IH]; simpl; [reflexivity | now rewrite IH]. Qed.

Lemma str_app_nil_r (a : string) : (a ++ "")%string = a.
Proof. induction a as [| x a IH]; simpl; [reflexivity | now rewrite IH]. Qed.

Lemma prefix_cons_ne (x c : ascii) (p s : string) :
  x <> c -> prefix (String x p) (String c s) = false.
Proof.
  intros Hne. cbn [prefix].
  destruct (ascii_dec x c) as [E | _]; [now destruct Hne | reflexivity].
Qed.

Lemma prefix_cons_eq (c : ascii) (p s : string) :
  prefix (String c p) (String c s) = prefix p s.
Proof.
  cbn [prefix].
  destruct (ascii_dec c c) as [_ | Hne]; [reflexivity | now destruct Hne].
Qed.

Lemma prefix_split (p s : string) :
  prefix p s = true -> exists b, s = (p ++ b)%string.
Proof.
  revert s. induction p as [| x p IH]; intros s H.
  - exists s. reflexivity.
  - destruct s as [| y s]; [discriminate H |].
    destruct (ascii_dec x y) as [-> | Hne].
    + rewrite prefix_cons_eq in H.
      destruct (IH s H) as [b ->]. exists b. reflexivity.
    + rewrite (prefix_cons_ne _ _ _ _ Hne) in H. discriminate H.
Qed.

Lemma prefix_app (p b : string) : prefix p (p ++ b) = true.
Proof.
  induction p as [| x p IH].
  - now destruct b.
  - change (String x p ++ b)%string with (String x (p ++ b)).
    now rewrite prefix_cons_eq.
Qed.

(** The decimal text of an integer has no blank in it. *)
Lemma str_of_int_no_blank (z : Z) : free_of " " (str_of_int z).
Proof.
  assert (Hu : forall d, free_of " " (NilEmpty.string_of_uint d)).
  { induction d; simpl; try exact I; (split; [discriminate | assumption]). }
  assert (Hz : forall d, free_of " " (NilZero.string_of_uint d)).
  { intros d. destruct d; try apply (Hu (_ : Decimal.uint)).
    simpl. split; [discriminate | exact I]. }
  unfold str_of_int. destruct (Z.to_int z) as [d | d]; simpl.
  - apply Hz.
  - split; [discriminate | apply Hz].
Qed.

(** Text without a blank is read through: no separator starts in it. *)
Lemma split_go_no_blank (a rest cur : string) :
  free_of " " a ->
  split_go " - " (a ++ rest) 0 cur = split_go " - " rest 0 (cur ++ a).
Proof.
  revert cur. induction a as [| c a IH]; intros cur Hfree.
  - simpl. now rewrite str_app_nil_r.
  - destruct Hfree as [Hc Hfree].
    change (String c a ++ rest)%string with (String c (a ++ rest)).
    cbn [split_go].
    rewrite prefix_cons_ne by congruence.
    rewrite (IH _ Hfree). now rewrite str_app_assoc.
Qed.

Lemma split_go_at_sep (b cur : string) :
  split_go " - " (" - " ++ b) 0 cur = cur :: split_go " - " b 0 "".
Proof.
  assert (Hp : prefix " - " (" - " ++ b) = true) by apply prefix_app.
  change (" - " ++ b)%string
    with (String " " (String "-" (String " " b))) in *.
  cbn [split_go]. rewrite Hp. reflexivity.
Qed.

(** Where [sep] does not occur there is nothing to split. *)
Lemma split_go_lacks (sep s cur : string) :
  lacks sep s -> split_go sep s 0 cur = [(cur ++ s)%string].
Proof.
  revert cur. induction s as [| c s IH]; intros cur Hlacks.
  - simpl. now rewrite str_app_nil_r.
  - cbn [split_go].
    destruct (prefix sep (String c s)) eqn:Hp.
    + exfalso. destruct (prefix_split _ _ Hp) as [b E].
      apply (Hlacks "" b). exact E.
    + rewrite IH; [now rewrite str_app_assoc |].
      intros a b E. apply (Hlacks (String c a) b). simpl. now rewrite E.
Qed.

(** The first part that a split gives is the text up to the first
    occurrence of the separator, or all of it. *)
Lemma split_go_first (sep s cur : string) :
  sep <> "" ->
  exists p rest tail,
    split_go sep s 0 cur = (cur ++ p)%string :: tail
    /\ s = (p ++ rest)%string
    /\ (rest = "" \/ exists b, rest = (sep ++ b)%string)
    /\ lacks sep p.
Proof.
  intros Hsep. revert cur. induction s as [| c s IH]; intros cur.
  - exists "", "", []. simpl. rewrite str_app_nil_r.
    repeat split; auto.
    intros a b E. destruct a; [destruct sep; [now apply Hsep |] |];
      discriminate E.
  - cbn [split_go].
    destruct (prefix sep (String c s)) eqn:Hp.
    + exists "", (String c s). eexists.
      rewrite str_app_nil_r. split; [reflexivity |]. split; [reflexivity |].
      split; [right; apply prefix_split; exact Hp |].
      intros a b E. destruct a; [destruct sep; [now apply Hsep |] |];
        discriminate E.
    + destruct (IH (cur ++ String c "")%string)
        as (p & rest & tail & Hgo & Hs & Hrest & Hlacks).
      exists (String c p), rest, tail. rewrite Hgo, str_app_assoc.
      split; [reflexivity |]. split; [simpl; now rewrite Hs |].
      split; [exact Hrest |].
      intros a b E. destruct a as [| x a].
      * simpl in E.
        assert (Hpre : prefix sep (String c s) = true).
        { rewrite Hs.
          change (String c (p ++ rest))%string
            with (String c p ++ rest)%string.
          rewrite E, str_app_assoc. apply prefix_app. }
        congruence.
      * simpl in E. injection E as _ E. now apply (Hlacks a b).
Qed.

(** Among the rows with a given id the filter puts the first one first. *)
Lemma filter_first_row (df : list customer) (row : customer) :
  In row df ->
  exists found pre post,
    df = pre ++ found :: post
    /\ Forall (fun r => CustomerId r <> CustomerId row) pre
    /\ CustomerId found = CustomerId row
    /\ filter (fun r => py_eq (VInt (CustomerId r)) (VInt (CustomerId row))) df
       = found :: filter (fun r => py_eq (VInt (CustomerId r))
                                         (VInt (CustomerId row))) post.
Proof.
  induction df as [| r df IH]; intros HI; [contradiction |].
  simpl. destruct (Z.eqb_spec (CustomerId r) (CustomerId row)) as [E | Hne].
  - exists r, [], df. repeat split; [constructor | exact E].
  - destruct HI as [-> | HI]; [now destruct Hne |].
    destruct (IH HI) as (found & pre & post & -> & Hpre & Hid & Hf).
    exists found, (r :: pre), post.
    repeat split; [constructor; assumption | exact Hid | exact Hf].
Qed.

Lemma NoDup_map_injective {A B} (f : A -> B) (l : list A) (x y : A) :
  NoDup (map f l) -> In x l -> In y l -> f x = f y -> x = y.
Proof.
  induction l as [| a l IH]; simpl; intros Hnd Hx Hy E; [contradiction |].
  inversion Hnd as [| ? ? Hnotin Hnd']; subst.
  destruct Hx as [-> | Hx]; destruct Hy as [-> | Hy].
  - reflexivity.
  - exfalso. apply Hnotin. rewrite E. now apply in_map.
  - exfalso. apply Hnotin. rewrite <- E. now apply in_map.
  - now apply IH.
Qed.

(** Selecting the option made from a row of the dataset: what lines 177-179
    compute, step by step. *)
Lemma select_customer_run (int_of_str : string -> option Z)
      (df : list customer) (row : customer) (w : world) :
  In row df ->
  int_of_str (str_of_int (CustomerId row)) = Some (CustomerId row) ->
  exists surname tail found pre post,
    split_go " - " (Surname row) 0 "" = surname :: tail
    /\ df = pre ++ found :: post
    /\ Forall (fun r => CustomerId r <> CustomerId row) pre
    /\ CustomerId found = CustomerId row
    /\ select_customer int_of_str df
         (str_of_int (CustomerId row) ++ " - " ++ Surname row)%string w
       = (Ok (VInt (CustomerId row), surname, found), w).
Proof.
  intros HI Hint.
  destruct (split_go_first " - " (Surname row) "")
    as (surname & rest & tail & Hgo & _ & _); [discriminate |].
  destruct (filter_first_row df row HI)
    as (found & pre & post & Hdf & Hpre & Hid & Hfilter).
  exists surname, tail, found, pre, post.
  repeat (split; [assumption |]).
  unfold select_customer, bind, lift, ret, py_split.
  rewrite (split_go_no_blank _ _ "" (str_of_int_no_blank (CustomerId row))).
  rewrite split_go_at_sep, Hgo.
  cbn [py_item nth_error py_int append]. rewrite Hint, Hfilter. reflexivity.
Qed.

(** X1.  Selecting the option made from a row of the dataset never fails
    (given that [int] reads back the decimal text of the row's id): the id
    read from the option is the row's CustomerId, and the row returned is
    the first row of the dataset that has this id. *)
Theorem select_customer_first_with_id
  (int_of_str : string -> option Z) (df : list customer) (row : customer)
  (w : world) :
  In row df ->
  int_of_str (str_of_int (CustomerId row)) = Some (CustomerId row) ->
  exists surname found pre post,
    select_customer int_of_str df
      (str_of_int (CustomerId row) ++ " - " ++ Surname row)%string w
    = (Ok (VInt (CustomerId row), surname, found), w)
    /\ df = pre ++ found :: post
    /\ CustomerId found = CustomerId row
    /\ Forall (fun r => CustomerId r <> CustomerId row) pre.
Proof.
  intros HI Hint.
  destruct (select_customer_run int_of_str df row w HI Hint)
    as (surname & tail & found & pre & post & _ & Hdf & Hpre & Hid & Hrun).
  exists surname, found, pre, post. auto.
Qed.

Lemma select_customer_first_with_id_witness :
  exists surname found,
    select_customer decimal_int_of_str sample_rows "15634602 - Onio"
                    empty_world
    = (Ok (VInt 15634602, surname, found), empty_world)
    /\ Surname found = "Hargrave".
Proof.
  destruct (select_customer_first_with_id decimal_int_of_str sample_rows
              (sample_row 15634602 "Onio" "Germany" "Male") empty_world)
    as (surname & found & pre & post & Hrun & _).
  - simpl. right. right. left. reflexivity.
  - vm_compute. reflexivity.
  - exists surname, found. split; [exact Hrun |].
    vm_compute in Hrun. inversion Hrun. reflexivity.
Defined.

(** X2.  When the ids of the dataset are pairwise distinct, selecting the
    option made from a row gives back that very row. *)
Theorem select_customer_round_trip
  (int_of_str : string -> option Z) (df : list customer) (row : customer)
  (w : world) :
  NoDup (map CustomerId df) ->
  In row df ->
  int_of_str (str_of_int (CustomerId row)) = Some (CustomerId row) ->
  exists surname,
    select_customer int_of_str df
      (str_of_int (CustomerId row) ++ " - " ++ Surname row)%string w
    = (Ok (VInt (CustomerId row), surname, row), w).
Proof.
  intros Hnd HI Hint.
  destruct (select_customer_run int_of_str df row w HI Hint)
    as (surname & tail & found & pre & post & _ & Hdf & Hpre & Hid & Hrun).
  exists surname.
  assert (Hfound : In found df).
  { rewrite Hdf. apply in_or_app. right. now left. }
  assert (E : found = row)
    by exact (NoDup_map_injective CustomerId df found row Hnd Hfound HI Hid).
  rewrite E in Hrun. exact Hrun.
Qed.

Lemma select_customer_round_trip_witness :
  exists surname,
    select_customer decimal_int_of_str
      [ sample_row 15634602 "Hargrave" "France" "Female";
        sample_row 15647311 "Hill - Jones" "Spain" "Female" ]
      "15647311 - Hill - Jones" empty_world
    = (Ok (VInt 15647311, surname,
           sample_row 15647311 "Hill - Jones" "Spain" "Female"),
       empty_world).
Proof.
  apply (select_customer_round_trip decimal_int_of_str
           [ sample_row 15634602 "Hargrave" "France" "Female";
             sample_row 15647311 "Hill - Jones" "Spain" "Female" ]
           (sample_row 15647311 "Hill - Jones" "Spain" "Female")
           empty_world).
  - simpl. repeat constructor; simpl; intuition discriminate.
  - simpl. right. left. reflexivity.
  - vm_compute. reflexivity.
Defined.

(** X3.  The surname read back from the option is the row's surname cut at
    the first occurrence of " - " (what follows the cut is lost), and it is
    the whole surname when " - " does not occur in it. *)
Theorem select_customer_surname
  (int_of_str : string -> option Z) (df : list customer) (row : customer)
  (w : world) :
  In row df ->
  int_of_str (str_of_int (CustomerId row)) = Some (CustomerId row) ->
  exists surname found rest,
    select_customer int_of_str df
      (str_of_int (CustomerId row) ++ " - " ++ Surname row)%string w
    = (Ok (VInt (CustomerId row), surname, found), w)
    /\ Surname row = (surname ++ rest)%string
    /\ (rest = "" \/ exists lost, rest = (" - " ++ lost)%string)
    /\ lacks " - " surname
    /\ (lacks " - " (Surname row) -> surname = Surname row).
Proof.
  intros HI Hint.
  destruct (select_customer_run int_of_str df row w HI Hint)
    as (surname & tail & found & pre & post & Hgo & _ & _ & _ & Hrun).
  destruct (split_go_first " - " (Surname row) "")
    as (p & rest & tail' & Hgo' & Hs & Hrest & Hcut); [discriminate |].
  rewrite Hgo in Hgo'. simpl in Hgo'. inversion Hgo'; subst p tail'.
  exists surname, found, rest.
  repeat (split; [assumption |]).
  intros Hlacks. rewrite (split_go_lacks _ _ "" Hlacks) in Hgo.
  simpl in Hgo. now inversion Hgo.
Qed.

Lemma select_customer_surname_witness :
  exists found,
    select_customer decimal_int_of_str sample_rows "15647311 - Hill - Jones"
                    empty_world
    = (Ok (VInt 15647311, "Hill", found), empty_world).
Proof.
  destruct (select_customer_surname decimal_int_of_str sample_rows
              (sample_row 15647311 "Hill - Jones" "Spain" "Female")
              empty_world)
    as (surname & found & rest & Hrun & _).
  - simpl. right. left. reflexivity.
  - vm_compute. reflexivity.
  - exists found. vm_compute in Hrun. inversion Hrun. vm_compute. reflexivity.
Defined.

(** X4.  The preselected location is the row's own geography when that is
    one of the three options of the box, and otherwise computing it raises
    ValueError; the preselected gender is the row's own gender when that is
    Male or Female, and Female for any other text. *)
Theorem preselection_follows_row (selected_customer : customer) :
  match location_index selected_customer with
  | Ok i => nth_error location_options i = Some (Geography selected_customer)
  | Raise e => e = ValueError
               /\ ~ In (Geography selected_customer) location_options
  end
  /\ match nth_error gender_options (gender_index selected_customer) with
     | Some g => (In (Gender selected_customer) gender_options ->
                  g = Gender selected_customer)
                 /\ (~ In (Gender selected_customer) gender_options ->
                     g = "Female")
     | None => False
     end.
Proof.
  split.
  - unfold location_index, py_index, location_options. cbn [index_of].
    destruct (String.eqb_spec (Geography selected_customer) "Spain") as [-> | H1];
      [reflexivity |].
    destruct (String.eqb_spec (Geography selected_customer) "France") as [-> | H2];
      [reflexivity |].
    destruct (String.eqb_spec (Geography selected_customer) "Germany") as [-> | H3];
      [reflexivity |].
    cbn. split; [reflexivity |]. intuition congruence.
  - unfold gender_index, gender_options.
    destruct (String.eqb_spec (Gender selected_customer) "Male") as [-> | H1];
      cbn.
    + split; [reflexivity | intros H; exfalso; apply H; now left].
    + split; [| reflexivity].
      intros [E | [E | []]]; [congruence | exact E].
Qed.

(* ===================================================================== *)
(** ** More on the feature encoder *)
(* ===================================================================== *)

Lemma one_if_eq_cases (x : value) (c : string) :
  (x = VStr c /\ one_if_eq x c = VInt 1)
  \/ (x <> VStr c /\ one_if_eq x c = VInt 0).
Proof.
  unfold one_if_eq. destruct (py_eq x (VStr c)) eqn:E.
  - left. split; [now apply py_eq_str | reflexivity].
  - right. split; [| reflexivity].
    intros Hx. apply py_eq_str in Hx. congruence.
Qed.

(** X5.  For every input, the encoder leaves the world as it found it; it
    returns exactly when [int] accepts both flags, and otherwise raises the
    exception of the first flag that [int] rejects. *)
Theorem prepare_input_outcome
  (int_of_str : string -> option Z)
  (credit_score location gender age tenure balance num_products
   has_credit_card is_active_member estimated_salary : value) (w : world) :
  match py_int int_of_str has_credit_card,
        py_int int_of_str is_active_member with
  | Ok _, Ok _ =>
      exists out,
        prepare_input int_of_str credit_score location gender age tenure
                      balance num_products has_credit_card is_active_member
                      estimated_salary w
        = (Ok out, w)
  | Raise e, _ | Ok _, Raise e =>
      prepare_input int_of_str credit_score location gender age tenure
                    balance num_products has_credit_card is_active_member
                    estimated_salary w
      = (Raise e, w)
  end.
Proof.
  destruct (py_int int_of_str has_credit_card) as [h | e] eqn:Hh.
  - destruct (py_int int_of_str is_active_member) as [a | e] eqn:Ha.
    + eexists. apply prepare_input_run; eassumption.
    + eapply prepare_input_raises_second; eassumption.
  - apply prepare_input_raises_first. exact Hh.
Qed.

(** X6.  Whatever the location and the gender are (strings or not), at most
    one indicator of each group is 1, and exactly one is 1 if and only if
    the value is one of the recognised strings of the group. *)
Theorem prepare_input_one_hot_iff
  (int_of_str : string -> option Z)
  (credit_score location gender age tenure balance num_products
   has_credit_card is_active_member estimated_salary h a : value)
  (w : world) :
  py_int int_of_str has_credit_card = Ok h ->
  py_int int_of_str is_active_member = Ok a ->
  exists input_df input_dict,
    prepare_input int_of_str credit_score location gender age tenure balance
                  num_products has_credit_card is_active_member
                  estimated_salary w
    = (Ok (input_df, input_dict), w)
    /\ (count_ones input_dict location_indicators <= 1)%nat
    /\ (count_ones input_dict location_indicators = 1%nat
        <-> In location (map VStr recognised_locations))
    /\ (count_ones input_dict gender_indicators <= 1)%nat
    /\ (count_ones input_dict gender_indicators = 1%nat
        <-> In gender (map VStr recognised_genders)).
Proof.
  intros Hh Ha.
  eexists. eexists. split.
  { apply prepare_input_run; eassumption. }
  unfold count_ones, location_indicators, gender_indicators,
    recognised_locations, recognised_genders.
  cbn [filter dict_get String.eqb Ascii.eqb Bool.eqb map In].
  destruct (one_if_eq_cases location "France") as [[EF ->] | [NF ->]];
    destruct (one_if_eq_cases location "Germany") as [[EG ->] | [NG ->]];
    destruct (one_if_eq_cases location "Spain") as [[ES ->] | [NS ->]];
    try congruence;
    destruct (one_if_eq_cases gender "Male") as [[EM ->] | [NM ->]];
    destruct (one_if_eq_cases gender "Female") as [[EW ->] | [NW ->]];
    try congruence;
    cbn [py_eq Z.eqb Pos.eqb List.length];
    repeat split; try lia; intros; try discriminate; try lia;
    try (subst; simpl; tauto);
    intuition congruence.
Qed.

Lemma prepare_input_one_hot_iff_witness :
  exists input_df input_dict,
    prepare_input decimal_int_of_str (VInt 650) (VStr "Italy") VNone
                  (VInt 40) (VInt 3) (VFloat (F64.of_Z 50000)) (VInt 2)
                  (VStr "1") (VInt 0) (VFloat (F64.of_Z 60000)) empty_world
    = (Ok (input_df, input_dict), empty_world)
    /\ count_ones input_dict location_indicators = 0%nat
    /\ count_ones input_dict gender_indicators = 0%nat.
Proof.
  destruct (prepare_input_one_hot_iff decimal_int_of_str (VInt 650)
              (VStr "Italy") VNone (VInt 40) (VInt 3)
              (VFloat (F64.of_Z 50000)) (VInt 2) (VStr "1") (VInt 0)
              (VFloat (F64.of_Z 60000)) (VInt 1) (VInt 0) empty_world)
    as (df & d & Hrun & _).
  - vm_compute. reflexivity.
  - reflexivity.
  - exists df, d. split; [exact Hrun |].
    vm_compute in Hrun. inversion Hrun. split; reflexivity.
Defined.

(** X7.  On recognised locations and genders and boolean flags the encoder
    loses nothing: two inputs that are encoded to the same dict are the
    same input, field by field. *)
Theorem prepare_input_injective
  (int_of_str : string -> option Z)
  (credit_score1 age1 tenure1 balance1 num_products1 estimated_salary1
   credit_score2 age2 tenure2 balance2 num_products2 estimated_salary2
   : value)
  (location1 gender1 location2 gender2 : string)
  (has_credit_card1 is_active_member1 has_credit_card2 is_active_member2
   : bool)
  (w1 w2 : world) (out1 out2 : DataFrame * dict value) :
  In location1 recognised_locations ->
  In location2 recognised_locations ->
  In gender1 recognised_genders ->
  In gender2 recognised_genders ->
  prepare_input int_of_str credit_score1 (VStr location1) (VStr gender1)
                age1 tenure1 balance1 num_products1 (VBool has_credit_card1)
                (VBool is_active_member1) estimated_salary1 w1
  = (Ok out1, w1) ->
  prepare_input int_of_str credit_score2 (VStr location2) (VStr gender2)
                age2 tenure2 balance2 num_products2 (VBool has_credit_card2)
                (VBool is_active_member2) estimated_salary2 w2
  = (Ok out2, w2) ->
  snd out1 = snd out2 ->
  credit_score1 = credit_score2 /\ location1 = location2
  /\ gender1 = gender2 /\ age1 = age2 /\ tenure1 = tenure2
  /\ balance1 = balance2 /\ num_products1 = num_products2
  /\ has_credit_card1 = has_credit_card2
  /\ is_active_member1 = is_active_member2
  /\ estimated_salary1 = estimated_salary2.
Proof.
  intros Hl1 Hl2 Hg1 Hg2 Hrun1 Hrun2 Hsame.
  rewrite (prepare_input_run int_of_str _ _ _ _ _ _ _
             (VBool has_credit_card1) (VBool is_active_member1) _
             (VInt (Z.b2z has_credit_card1)) (VInt (Z.b2z is_active_member1))
             w1 eq_refl eq_refl) in Hrun1.
  rewrite (prepare_input_run int_of_str _ _ _ _ _ _ _
             (VBool has_credit_card2) (VBool is_active_member2) _
             (VInt (Z.b2z has_credit_card2)) (VInt (Z.b2z is_active_member2))
             w2 eq_refl eq_refl) in Hrun2.
  injection Hrun1 as <-. injection Hrun2 as <-.
  cbn [snd] in Hsame.
  injection Hsame as Hcs Hage Hten Hbal Hnp Hhcc Hiam Hsal HF HG HS HM HW.
  assert (Hloc : location1 = location2).
  { simpl in Hl1, Hl2.
    destruct Hl1 as [<- | [<- | [<- | []]]];
      destruct Hl2 as [<- | [<- | [<- | []]]];
      try reflexivity; try discriminate HF; try discriminate HG;
      discriminate HS. }
  assert (Hgen : gender1 = gender2).
  { simpl in Hg1, Hg2.
    destruct Hg1 as [<- | [<- | []]]; destruct Hg2 as [<- | [<- | []]];
      try reflexivity; try discriminate HM; discriminate HW. }
  assert (Hb : forall b1 b2, Z.b2z b1 = Z.b2z b2 -> b1 = b2)
    by (intros [] []; simpl; intros E; (reflexivity || discriminate E)).
  repeat split; try assumption; apply Hb; assumption.
Qed.

Lemma prepare_input_injective_witness :
  VInt 650 = VInt 650 /\ "Spain" = "Spain" /\ "Female" = "Female"
  /\ VInt 40 = VInt 40 /\ VInt 3 = VInt 3
  /\ VFloat (F64.of_Z 50000) = VFloat (F64.of_Z 50000)
  /\ VInt 2 = VInt 2 /\ true = true /\ false = false
  /\ VFloat (F64.of_Z 60000) = VFloat (F64.of_Z 60000).
Proof.
  eapply (prepare_input_injective decimal_int_of_str
            (VInt 650) (VInt 40) (VInt 3) (VFloat (F64.of_Z 50000)) (VInt 2)
            (VFloat (F64.of_Z 60000))
            (VInt 650) (VInt 40) (VInt 3) (VFloat (F64.of_Z 50000)) (VInt 2)
            (VFloat (F64.of_Z 60000))
            "Spain" "Female" "Spain" "Female" true false true false
            empty_world {| fs := []; page := []; cursor := Some 1%nat |}).
  - simpl. tauto.
  - simpl. tauto.
  - simpl. tauto.
  - simpl. tauto.
  - vm_compute. reflexivity.
  - vm_compute. reflexivity.
  - reflexivity.
Defined.

(** X8.  Unrecognised locations are not told apart: with the other inputs
    the same, any two locations outside the three recognised strings give
    the same outcome, the same frame and dict or the same exception. *)
Theorem prepare_input_unrecognised_collide
  (int_of_str : string -> option Z)
  (credit_score location1 location2 gender age tenure balance num_products
   has_credit_card is_active_member estimated_salary : value) (w : world) :
  ~ In location1 (map VStr recognised_locations) ->
  ~ In location2 (map VStr recognised_locations) ->
  prepare_input int_of_str credit_score location1 gender age tenure balance
                num_products has_credit_card is_active_member
                estimated_salary w
  = prepare_input int_of_str credit_score location2 gender age tenure balance
                  num_products has_credit_card is_active_member
                  estimated_salary w.
Proof.
  intros H1 H2. simpl in H1, H2.
  assert (Hmiss : forall location c,
             ~ (VStr "France" = location \/ VStr "Germany" = location
                \/ VStr "Spain" = location \/ False) ->
             In c recognised_locations -> one_if_eq location c = VInt 0).
  { intros location c Hn Hc. apply one_if_eq_miss. intros E.
    apply Hn. simpl in Hc. rewrite E. intuition congruence. }
  unfold prepare_input.
  rewrite (Hmiss location1 "France"), (Hmiss location1 "Germany"),
    (Hmiss location1 "Spain"), (Hmiss location2 "France"),
    (Hmiss location2 "Germany"), (Hmiss location2 "Spain");
    try assumption; simpl; tauto.
Qed.

Lemma prepare_input_unrecognised_collide_witness :
  prepare_input decimal_int_of_str (VInt 650) (VStr "Italy") (VStr "Male")
                (VInt 40) (VInt 3) (VFloat F64.zero) (VInt 2) (VBool true)
                (VBool false) (VFloat F64.zero) empty_world
  = prepare_input decimal_int_of_str (VInt 650) (VStr "france")
                  (VStr "Male") (VInt 40) (VInt 3) (VFloat F64.zero) (VInt 2)
                  (VBool true) (VBool false) (VFloat F64.zero) empty_world.
Proof.
  apply (prepare_input_unrecognised_collide decimal_int_of_str (VInt 650)
           (VStr "Italy") (VStr "france") (VStr "Male") (VInt 40) (VInt 3)
           (VFloat F64.zero) (VInt 2) (VBool true) (VBool false)
           (VFloat F64.zero) empty_world);
    simpl; intros [H | [H | [H | []]]]; discriminate H.
Defined.

(** X9.  The encoder does not restrict the flags to 0 and 1: a flag given
    as an integer, as the dataset holds it, is stored as it is. *)
Theorem prepare_input_integer_flags
  (int_of_str : string -> option Z)
  (credit_score location gender age tenure balance num_products
   estimated_salary : value)
  (has_credit_card is_active_member : Z) (w : world) :
  exists input_df input_dict,
    prepare_input int_of_str credit_score location gender age tenure balance
                  num_products (VInt has_credit_card) (VInt is_active_member)
                  estimated_salary w
    = (Ok (input_df, input_dict), w)
    /\ dict_get input_dict "HasCrCard" = Some (VInt has_credit_card)
    /\ dict_get input_dict "IsActiveMember" = Some (VInt is_active_member)
    /\ df_at input_df 0 "HasCrCard" = Some (VInt has_credit_card)
    /\ df_at input_df 0 "IsActiveMember" = Some (VInt is_active_member).
Proof.
  eexists. eexists. split.
  { apply prepare_input_run; reflexivity. }
  repeat split.
Qed.

(* ===================================================================== *)
(** ** More on the model loader *)
(* ===================================================================== *)

Lemma load_model_missing (pickle_load : string -> result model)
      (filename : string) (w : world) :
  dict_get (fs w) filename = None ->
  under_a_file (fs w) filename = false ->
  load_model pickle_load filename w
  = (Ok None,
     shows w [StError ("Model file '" ++ filename ++ "' not found.")%string]).
Proof.
  intros Hmissing Hfree.
  unfold load_model, try_except, bind, open_rb, lift.
  rewrite Hmissing, Hfree. reflexivity.
Qed.

Lemma load_model_ends
      (pickle_load : string -> result model) (filename : string) (w : world) :
  match load_model pickle_load filename w with
  | (Ok m, w') =>
      w' = w \/ (m = None /\ exists msg, w' = shows w [StError msg])
  | (Raise e, w') =>
      w' = w /\ e <> UnpicklingError
      /\ forall path, e <> FileNotFoundError path
  end.
Proof.
  unfold load_model, try_except, bind, open_rb, lift.
  destruct (dict_get (fs w) filename) as [[content | |] |].
  - destruct (pickle_load content) as [m | e].
    + left. reflexivity.
    + destruct e; cbn;
        try (right; split; [reflexivity | eexists; reflexivity]);
        (split; [reflexivity | split; [discriminate | discriminate]]).
  - cbn. split; [reflexivity | split; discriminate].
  - cbn. split; [reflexivity | split; discriminate].
  - destruct (under_a_file (fs w) filename); cbn.
    + split; [reflexivity | split; discriminate].
    + right. split; [reflexivity | eexists; reflexivity].
Qed.


(** X11.  A readable artifact that unpickles is returned as it is, and
    nothing is shown. *)
Theorem load_model_returns_artifact
  (pickle_load : string -> result model) (filename content : string)
  (m : model) (w : world) :
  dict_get (fs w) filename = Some (RegularFile content) ->
  pickle_load content = Ok m ->
  load_model pickle_load filename w = (Ok m, w).
Proof.
  intros Hfile Hload.
  unfold load_model, try_except, bind.
  assert (Hopen : open_rb filename w = (Ok content, w))
    by (unfold open_rb; now rewrite Hfile).
  rewrite Hopen. unfold lift. now rewrite Hload.
Qed.

Lemma load_model_returns_artifact_witness :
  load_model (fun _ => Ok (constant_classifier lit_0_5)) "knn_model.pkl"
             {| fs := [("knn_model.pkl", RegularFile "bytes")];
                page := []; cursor := None |}
  = (Ok (constant_classifier lit_0_5),
     {| fs := [("knn_model.pkl", RegularFile "bytes")];
        page := []; cursor := None |}).
Proof.
  apply (load_model_returns_artifact
           (fun _ => Ok (constant_classifier lit_0_5)) "knn_model.pkl"
           "bytes" (constant_classifier lit_0_5)
           {| fs := [("knn_model.pkl", RegularFile "bytes")];
              page := []; cursor := None |});
    reflexivity.
Defined.

(** X12.  An artifact path that is a directory or cannot be read, and an
    unpickler exception other than the two that are caught (EOFError on an
    empty file, say), make [load_model] raise that exception, with nothing
    shown. *)
Theorem load_model_uncaught
  (pickle_load : string -> result model) (filename : string) (w : world) :
  (dict_get (fs w) filename = Some Directory ->
   load_model pickle_load filename w = (Raise (IsADirectoryError filename), w))
  /\ (dict_get (fs w) filename = Some Unreadable ->
      load_model pickle_load filename w
      = (Raise (PermissionError filename), w))
  /\ (forall content e,
        dict_get (fs w) filename = Some (RegularFile content) ->
        pickle_load content = Raise e ->
        e <> UnpicklingError ->
        (forall path, e <> FileNotFoundError path) ->
        load_model pickle_load filename w = (Raise e, w)).
Proof.
  repeat split.
  - intros H. unfold load_model, try_except, bind, open_rb, lift.
    now rewrite H.
  - intros H. unfold load_model, try_except, bind, open_rb, lift.
    now rewrite H.
  - intros content e. apply load_model_propagates.
Qed.

Lemma load_model_keeps_files
      (pickle_load : string -> result model) (filename : string)
      (w w' : world) (r : result model) :
  load_model pickle_load filename w = (r, w') -> fs w' = fs w.
Proof.
  intros E. pose proof (load_model_ends pickle_load filename w) as H.
  rewrite E in H. destruct r as [m | e].
  - destruct H as [-> | [_ [msg ->]]]; reflexivity.
  - destruct H as [-> _]. reflexivity.
Qed.

Lemma load_model_missing_None
      (pickle_load : string -> result model) (filename : string)
      (w w' : world) (m : model) :
  dict_get (fs w) filename = None ->
  under_a_file (fs w) filename = false ->
  load_model pickle_load filename w = (Ok m, w') -> m = None.
Proof.
  intros Hmissing Hfree E.
  rewrite (load_model_missing _ _ _ Hmissing Hfree) in E.
  now inversion E.
Qed.

(** X13.  Start-up with none of the three artifacts on disk does not fail:
    the three not-found messages are shown in the order XGBoost, random
    forest, nearest neighbours, and all three model variables are
    [None]. *)
Theorem load_models_all_missing
  (pickle_load : string -> result model) (w : world) :
  dict_get (fs w) "xgb_model.pkl" = None ->
  dict_get (fs w) "rf_model.pkl" = None ->
  dict_get (fs w) "knn_model.pkl" = None ->
  load_models pickle_load w
  = (Ok {| xgboost_model := None;
           random_forest_model := None;
           knn_model := None |},
     shows w [ StError "Model file 'xgb_model.pkl' not found.";
               StError "Model file 'rf_model.pkl' not found.";
               StError "Model file 'knn_model.pkl' not found." ]).
Proof.
  intros Hx Hr Hk. unfold load_models, bind.
  rewrite (load_model_missing _ _ _ Hx eq_refl).
  match goal with
  | |- context [load_model _ "rf_model.pkl" ?w1] =>
      rewrite (load_model_missing pickle_load "rf_model.pkl" w1 Hr eq_refl)
  end.
  match goal with
  | |- context [load_model _ "knn_model.pkl" ?w2] =>
      rewrite (load_model_missing pickle_load "knn_model.pkl" w2 Hk eq_refl)
  end.
  unfold ret, shows. cbn [fs page cursor map append].
  repeat rewrite <- app_assoc. reflexivity.
Qed.

Lemma load_models_all_missing_witness :
  load_models (fun _ => Raise EOFError) empty_world
  = (Ok {| xgboost_model := None;
           random_forest_model := None;
           knn_model := None |},
     shows empty_world
           [ StError "Model file 'xgb_model.pkl' not found.";
             StError "Model file 'rf_model.pkl' not found.";
             StError "Model file 'knn_model.pkl' not found." ]).
Proof.
  apply (load_models_all_missing (fun _ => Raise EOFError) empty_world);
    reflexivity.
Defined.

(* ===================================================================== *)
(** ** More on the prediction aggregator *)
(* ===================================================================== *)

Lemma positive_proba_cases (m : model) (input_df : DataFrame) (w : world) :
  (exists p, answers m input_df p /\ positive_proba m input_df w = (Ok p, w))
  \/ (exists e, positive_proba m input_df w = (Raise e, w)).
Proof.
  destruct m as [c |]; [| right; eexists; reflexivity].
  unfold positive_proba, bind, lift.
  destruct (predict_proba c input_df) as [proba | e] eqn:Hproba;
    [| right; eexists; reflexivity].
  destruct (nth_error proba 0) as [row |] eqn:Hrow;
    [| right; eexists; reflexivity].
  destruct (nth_error row 1) as [p |] eqn:Hp;
    [| right; eexists; reflexivity].
  left. exists p. split; [| reflexivity].
  exists c, proba, row. auto.
Qed.

Lemma make_predictions_raises (models : registry) (input_df : DataFrame)
      (input_dict : dict value) (e : exn) (w : world) :
  model_probabilities models input_df w = (Raise e, w) ->
  make_predictions models input_df input_dict w = (Raise e, w).
Proof.
  intros H. unfold make_predictions, bind at 1. now rewrite H.
Qed.

Lemma model_probabilities_cases (models : registry) (input_df : DataFrame)
      (w : world) :
  (exists xgb rf knn,
      answers (xgboost_model models) input_df xgb
      /\ answers (random_forest_model models) input_df rf
      /\ answers (knn_model models) input_df knn)
  \/ (exists e, model_probabilities models input_df w = (Raise e, w)).
Proof.
  unfold model_probabilities, bind.
  destruct (positive_proba_cases (xgboost_model models) input_df w)
    as [(xgb & Hx & ->) | (e & ->)]; [| right; eexists; reflexivity].
  destruct (positive_proba_cases (random_forest_model models) input_df w)
    as [(rf & Hr & ->) | (e & ->)]; [| right; eexists; reflexivity].
  destruct (positive_proba_cases (knn_model models) input_df w)
    as [(knn & Hk & ->) | (e & ->)]; [| right; eexists; reflexivity].
  left. exists xgb, rf, knn. auto.
Qed.

Lemma make_predictions_cases (models : registry) (input_df : DataFrame)
      (input_dict : dict value) (w : world) :
  (exists xgb rf knn,
      answers (xgboost_model models) input_df xgb
      /\ answers (random_forest_model models) input_df rf
      /\ answers (knn_model models) input_df knn
      /\ make_predictions models input_df input_dict w
         = (Ok (np_mean [xgb; rf; knn]),
            {| fs := fs w;
               page := page w ++ prediction_page (cursor w) xgb rf knn;
               cursor := cursor w |}))
  \/ (exists e, make_predictions models input_df input_dict w = (Raise e, w)).
Proof.
  destruct (model_probabilities_cases models input_df w)
    as [(xgb & rf & knn & Hx & Hr & Hk) | (e & He)].
  - left. exists xgb, rf, knn. repeat (split; [assumption |]).
    now apply make_predictions_run.
  - right. exists e. now apply make_predictions_raises.
Qed.

(** X14.  No failure of a model leaves a half-drawn page: when one of the
    three models does not answer (it is missing, its [predict_proba]
    raises, or its array has no entry [0][1]), [make_predictions] raises
    before anything is rendered, and the world is exactly as it was. *)
Theorem make_predictions_model_failure
  (models : registry) (input_df : DataFrame) (input_dict : dict value)
  (w : world) :
  ~ (exists xgb rf knn,
        answers (xgboost_model models) input_df xgb
        /\ answers (random_forest_model models) input_df rf
        /\ answers (knn_model models) input_df knn) ->
  exists e, make_predictions models input_df input_dict w = (Raise e, w).
Proof.
  intros Hfail.
  destruct (model_probabilities_cases models input_df w)
    as [Hall | (e & He)].
  - now destruct Hfail.
  - exists e. now apply make_predictions_raises.
Qed.

Lemma make_predictions_model_failure_witness :
  exists e,
    make_predictions
      {| xgboost_model := constant_classifier lit_0_2;
         random_forest_model :=
           Some {| predict_proba := fun _ => Raise ValueError |};
         knn_model := constant_classifier lit_0_8 |}
      sample_frame sample_dict empty_world
    = (Raise e, empty_world).
Proof.
  apply (make_predictions_model_failure
           {| xgboost_model := constant_classifier lit_0_2;
              random_forest_model :=
                Some {| predict_proba := fun _ => Raise ValueError |};
              knn_model := constant_classifier lit_0_8 |}
           sample_frame sample_dict empty_world).
  intros (xgb & rf & knn & _ & (c & proba & row & Hc & Hproba & _) & _).
  cbn in Hc. injection Hc as <-. discriminate Hproba.
Defined.

Lemma answers_loaded (m : model) (input_df : DataFrame) (p : F64.float) :
  answers m input_df p -> m <> None.
Proof. intros (c & _ & _ & -> & _). discriminate. Qed.

(** X15.  A model file that is absent at start-up is only reported then;
    it is afterwards that it hurts: with the registry such a start-up
    leaves, every call of [make_predictions] raises, and shows nothing. *)
Theorem missing_artifact_breaks_prediction
  (pickle_load : string -> result model) (filename : string)
  (models : registry) (w w' : world) :
  In filename ["xgb_model.pkl"; "rf_model.pkl"; "knn_model.pkl"] ->
  dict_get (fs w) filename = None ->
  load_models pickle_load w = (Ok models, w') ->
  forall input_df input_dict w2,
  exists e,
    make_predictions models input_df input_dict w2 = (Raise e, w2).
Proof.
  intros Hname Hmissing Hload input_df input_dict w2.
  unfold load_models, bind in Hload.
  destruct (load_model pickle_load "xgb_model.pkl" w)
    as [[m1 | e1] w1] eqn:E1; [| discriminate Hload].
  destruct (load_model pickle_load "rf_model.pkl" w1)
    as [[m2 | e2] w2'] eqn:E2; [| discriminate Hload].
  destruct (load_model pickle_load "knn_model.pkl" w2')
    as [[m3 | e3] w3] eqn:E3; [| discriminate Hload].
  unfold ret in Hload. injection Hload as <- _.
  pose proof (load_model_keeps_files _ _ _ _ _ E1) as F1.
  pose proof (load_model_keeps_files _ _ _ _ _ E2) as F2.
  assert (Hnone : m1 = None \/ m2 = None \/ m3 = None).
  { simpl in Hname. destruct Hname as [<- | [<- | [<- | []]]].
    - left. eapply load_model_missing_None; [| | eassumption];
        [assumption | reflexivity].
    - right. left. eapply load_model_missing_None; [| | eassumption];
        [now rewrite F1 | reflexivity].
    - right. right. eapply load_model_missing_None; [| | eassumption];
        [now rewrite F2, F1 | reflexivity]. }
  destruct (make_predictions_cases
              {| xgboost_model := m1; random_forest_model := m2;
                 knn_model := m3 |} input_df input_dict w2)
    as [(xgb & rf & knn & Hx & Hr & Hk & _) | Hraise]; [| exact Hraise].
  exfalso. cbn in Hx, Hr, Hk.
  destruct Hnone as [-> | [-> | ->]].
  - now apply (answers_loaded _ _ _ Hx).
  - now apply (answers_loaded _ _ _ Hr).
  - now apply (answers_loaded _ _ _ Hk).
Qed.

Lemma missing_artifact_breaks_prediction_witness :
  exists e,
    make_predictions
      {| xgboost_model := None; random_forest_model := None;
         knn_model := None |}
      sample_frame sample_dict empty_world
    = (Raise e, empty_world).
Proof.
  apply (missing_artifact_breaks_prediction (fun _ => Raise EOFError)
           "rf_model.pkl"
           {| xgboost_model := None; random_forest_model := None;
              knn_model := None |}
           empty_world
           (shows empty_world
                  [ StError "Model file 'xgb_model.pkl' not found.";
                    StError "Model file 'rf_model.pkl' not found.";
                    StError "Model file 'knn_model.pkl' not found." ])).
  - simpl. right. left. reflexivity.
  - reflexivity.
  - vm_compute. reflexivity.
Defined.

(** X16.  When the XGBoost model's [predict_proba] gives an array that has
    no first row, or whose first row has fewer than two entries,
    [make_predictions] raises IndexError and shows nothing. *)
Theorem make_predictions_short_output
  (models : registry) (c : classifier) (proba : list (list F64.float))
  (input_df : DataFrame) (input_dict : dict value) (w : world) :
  xgboost_model models = Some c ->
  predict_proba c input_df = Ok proba ->
  (List.length proba = 0%nat
   \/ exists row, nth_error proba 0 = Some row /\ (List.length row < 2)%nat) ->
  make_predictions models input_df input_dict w = (Raise IndexError, w).
Proof.
  intros Hc Hproba Hshort.
  apply make_predictions_raises.
  unfold model_probabilities, bind, positive_proba, bind, lift.
  rewrite Hc, Hproba.
  destruct Hshort as [Hlen | (row & Hrow & Hlen)].
  - destruct proba; [reflexivity | discriminate Hlen].
  - rewrite Hrow.
    destruct row as [| p0 [| p1 row]]; [reflexivity | reflexivity |].
    simpl in Hlen. lia.
Qed.

Lemma make_predictions_short_output_witness :
  make_predictions
    {| xgboost_model := Some {| predict_proba := fun _ => Ok [[lit_0_5]] |};
       random_forest_model := constant_classifier lit_0_5;
       knn_model := constant_classifier lit_0_8 |}
    sample_frame sample_dict empty_world
  = (Raise IndexError, empty_world).
Proof.
  apply (make_predictions_short_output
           {| xgboost_model :=
                Some {| predict_proba := fun _ => Ok [[lit_0_5]] |};
              random_forest_model := constant_classifier lit_0_5;
              knn_model := constant_classifier lit_0_8 |}
           {| predict_proba := fun _ => Ok [[lit_0_5]] |}
           [[lit_0_5]] sample_frame sample_dict empty_world).
  - reflexivity.
  - reflexivity.
  - right. exists [lit_0_5]. split; [reflexivity | simpl; lia].
Defined.

Lemma add_nan_r (x : F64.float) : F64.add x F64.nan = F64.nan.
Proof. destruct x; reflexivity. Qed.

Lemma fold_add_nan (l : list F64.float) :
  fold_left F64.add l F64.nan = F64.nan.
Proof. induction l as [| x l IH]; simpl; [reflexivity | exact IH]. Qed.

(** The mean of a list that holds a NaN is NaN. *)
Lemma np_mean_nan (l : list F64.float) :
  In F64.nan l -> np_mean l = F64.nan.
Proof.
  intros HI. unfold np_mean.
  assert (Hsum : forall acc, fold_left F64.add l acc = F64.nan).
  { induction l as [| x l IH]; intros acc; [contradiction |].
    simpl. destruct HI as [-> | HI].
    - rewrite add_nan_r. apply fold_add_nan.
    - now apply IH. }
  rewrite Hsum. reflexivity.
Qed.

(** X17.  A NaN from any one of the three models makes the aggregate NaN,
    and it is rendered all the same: the call returns NaN and puts the nine
    elements on the page. *)
Theorem make_predictions_nan
  (models : registry) (input_df : DataFrame) (input_dict : dict value)
  (xgb rf knn : F64.float) (w : world) :
  answers (xgboost_model models) input_df xgb ->
  answers (random_forest_model models) input_df rf ->
  answers (knn_model models) input_df knn ->
  In F64.nan [xgb; rf; knn] ->
  make_predictions models input_df input_dict w
  = (Ok F64.nan,
     {| fs := fs w;
        page := page w ++ prediction_page (cursor w) xgb rf knn;
        cursor := cursor w |}).
Proof.
  intros Hx Hr Hk Hnan.
  rewrite (make_predictions_run models input_df xgb rf knn Hx Hr Hk).
  now rewrite (np_mean_nan _ Hnan).
Qed.

Lemma make_predictions_nan_witness :
  fst (make_predictions
         {| xgboost_model := constant_classifier lit_0_2;
            random_forest_model := constant_classifier F64.nan;
            knn_model := constant_classifier lit_0_8 |}
         sample_frame sample_dict empty_world)
  = Ok F64.nan.
Proof.
  rewrite (make_predictions_nan
             {| xgboost_model := constant_classifier lit_0_2;
                random_forest_model := constant_classifier F64.nan;
                knn_model := constant_classifier lit_0_8 |}
             sample_frame sample_dict lit_0_2 F64.nan lit_0_8 empty_world).
  - reflexivity.
  - eexists; eexists; eexists.
    split; [reflexivity |]. split; [reflexivity |]. split; reflexivity.
  - eexists; eexists; eexists.
    split; [reflexivity |]. split; [reflexivity |]. split; reflexivity.
  - eexists; eexists; eexists.
    split; [reflexivity |]. split; [reflexivity |]. split; reflexivity.
  - simpl. right. left. reflexivity.
Defined.

(* ===================================================================== *)
(** ** The bar chart *)
(* ===================================================================== *)

Lemma dict_get_nth {A} (d : dict A) (i : nat) (k : string) :
  NoDup (dict_keys d) ->
  nth_error (dict_keys d) i = Some k ->
  dict_get d k = nth_error (dict_values d) i.
Proof.
  revert i. induction d as [| [k' v'] d IH]; intros i Hnd Hk.
  - destruct i; discriminate Hk.
  - inversion Hnd as [| ? ? Hnotin Hnd']; subst.
    destruct i as [| i]; simpl in Hk |- *.
    + inversion Hk; subst. now rewrite String.eqb_refl.
    + destruct (String.eqb_spec k k') as [-> | _].
      * exfalso. apply Hnotin. eapply nth_error_In. exact Hk.
      * now apply IH.
Qed.

(** X18.  In the bar chart every bar stands under its own label: the
    labels, the heights and the texts are as many as the dict has entries,
    the height of the bar at any position is the probability the dict
    holds for the label at that position, and its text is that same
    number.  Building the chart shows nothing. *)
Theorem probability_chart_aligned
  (probabilities : dict F64.float) (w : world) :
  NoDup (dict_keys probabilities) ->
  exists x y text textposition chart_layout,
    create_model_probability_chart probabilities w
    = (Ok {| traces := [Bar x y text textposition];
             layout := chart_layout |}, w)
    /\ List.length x = List.length probabilities
    /\ List.length y = List.length probabilities
    /\ List.length text = List.length probabilities
    /\ (forall i k, nth_error x i = Some k ->
                    nth_error y i = dict_get probabilities k)
    /\ (forall i, nth_error text i
                  = option_map (fun v => [Percent2 v]) (nth_error y i)).
Proof.
  intros Hnd.
  eexists. eexists. eexists. eexists. eexists.
  split; [reflexivity |].
  unfold dict_keys, dict_values.
  repeat rewrite length_map.
  repeat (split; [reflexivity |]).
  split.
  - intros i k Hk. symmetry. now apply dict_get_nth.
  - intros i. apply nth_error_map.
Qed.

Lemma probability_chart_aligned_witness :
  exists fig,
    create_model_probability_chart
      [ ("XGBoost", lit_0_2); ("Random Forest", lit_0_5);
        ("K-Nearest Neighbors", lit_0_8) ] empty_world
    = (Ok fig, empty_world).
Proof.
  destruct (probability_chart_aligned
              [ ("XGBoost", lit_0_2); ("Random Forest", lit_0_5);
                ("K-Nearest Neighbors", lit_0_8) ] empty_world)
    as (x & y & text & tp & lay & Hrun & _).
  - apply distinct_NoDup. reflexivity.
  - eexists. exact Hrun.
Defined.

Lemma load_model_uncaught_witness :
  load_model (fun _ => Raise EOFError) "xgb_model.pkl"
             {| fs := [("xgb_model.pkl", RegularFile "")];
                page := []; cursor := None |}
  = (Raise EOFError,
     {| fs := [("xgb_model.pkl", RegularFile "")];
        page := []; cursor := None |}).
Proof.
  apply (proj2 (proj2 (load_model_uncaught (fun _ => Raise EOFError)
                         "xgb_model.pkl"
                         {| fs := [("xgb_model.pkl", RegularFile "")];
                            page := []; cursor := None |})) "" EOFError).
  - reflexivity.
  - reflexivity.
  - discriminate.
  - intros path. discriminate.
Defined.

(* ===================================================================== *)
(** ** Artifacts that the loader does not survive *)
(* ===================================================================== *)

(** A path that lies under a file is refused by [open] as not a directory,
    and this exception is not among those [load_model] handles. *)
Lemma load_model_under_a_file
      (pickle_load : string -> result model) (filename : string) (w : world) :
  dict_get (fs w) filename = None ->
  under_a_file (fs w) filename = true ->
  load_model pickle_load filename w = (Raise (NotADirectoryError filename), w).
Proof.
  intros Hmissing Hunder.
  unfold load_model, try_except, bind, open_rb, lift.
  rewrite Hmissing, Hunder. reflexivity.
Qed.

(** C4.  The handlers of [load_model] miss malformed artifacts that the
    unpickler rejects with another exception than UnpicklingError.  On an
    empty file, for which [pickle.load] raises EOFError, [load_model] shows
    no message and returns no [None]: the EOFError leaves the function, and
    with it the script stops at start-up. *)
Theorem load_model_eof_escapes
  (pickle_load : string -> result model) (w : world) :
  dict_get (fs w) "xgb_model.pkl" = Some (RegularFile "") ->
  pickle_load "" = Raise EOFError ->
  load_model pickle_load "xgb_model.pkl" w = (Raise EOFError, w)
  /\ load_models pickle_load w = (Raise EOFError, w).
Proof.
  intros Hfile Hload.
  assert (Hcrash : load_model pickle_load "xgb_model.pkl" w
                   = (Raise EOFError, w)).
  { apply (load_model_propagates pickle_load "xgb_model.pkl" "" EOFError w
             Hfile Hload).
    - discriminate.
    - intros path. discriminate. }
  split; [exact Hcrash |].
  unfold load_models, bind. now rewrite Hcrash.
Qed.

Lemma load_model_eof_escapes_witness :
  load_model (fun content => match content with
                             | EmptyString => Raise EOFError
                             | _ => Raise UnpicklingError
                             end)
             "xgb_model.pkl"
             {| fs := [("xgb_model.pkl", RegularFile "")];
                page := []; cursor := None |}
  = (Raise EOFError,
     {| fs := [("xgb_model.pkl", RegularFile "")];
        page := []; cursor := None |}).
Proof.
  apply (load_model_eof_escapes
           (fun content => match content with
                           | EmptyString => Raise EOFError
                           | _ => Raise UnpicklingError
                           end)
           {| fs := [("xgb_model.pkl", RegularFile "")];
              page := []; cursor := None |});
    reflexivity.
Defined.
